(** * Client session controller of the AI chat front end

    A shallow embedding of the client side of the chat protocol:

    - [frontend/src/types/websocket.ts] and [types/message.ts]: the wire
      frames and the domain message;
    - [frontend/src/stores/chatStore.ts]: the streaming accumulator store;
    - the [useWebSocketStore] store (connection status, last error, bound
      conversation);
    - [frontend/src/hooks/useWebSocket.ts]: [connect], the four socket
      callbacks, [disconnect] and [sendMessage];
    - [frontend/src/components/chat/MessageInput.tsx]: [canSend] and
      [handleSend].

    The two zustand stores and the hook's refs form one explicit state; the
    handlers are written in a small state-and-trace monad, one line of Rocq
    per statement of the source.  Every call that leaves the hook (a frame
    handed to the socket, a timer, a caller-supplied callback) and every
    store update is appended to the trace. *)

From Stdlib Require Import String ZArith List Bool Lia.
Import ListNotations.

Local Open Scope string_scope.
Local Open Scope Z_scope.

(* ================================================================== *)
(** * Wire protocol types ([types/websocket.ts], [types/message.ts]) *)
(* ================================================================== *)

Module Types.

Inductive WSErrorCode : Type :=
| INVALID_JSON
| UNKNOWN_TYPE
| AUTH_REQUIRED
| AUTH_FAILED
| AUTH_TIMEOUT
| NO_CONVERSATION
| RATE_LIMIT_EXCEEDED
| ALREADY_PROCESSING
| INTERNAL_ERROR
| EMPTY_CONTENT
| MESSAGE_TOO_LONG
| AI_TIMEOUT
| AI_ERROR.

(** [WSOutgoingMessage = WSAuthMessage | WSChatMessage | WSPongMessage].
    These are built by the client itself, so the discriminated union is an
    inductive type. *)
Inductive WSOutgoingMessage : Type :=
| WSAuthMessage (token : string)
| WSChatMessage (content : string)
| WSPongMessage.

(** What [JSON.parse(event.data) as WSIncomingMessage] hands to the
    [switch].  The cast is unchecked, and the handler dispatches on the
    string in [type] and then reads the fields of the selected interface by
    name; so an incoming message is the record of the fields the handler can
    read, with [type] an arbitrary string.  A field that the frame does not
    carry reads as the empty string, [false] or [None]: for [content],
    [done] and [message_id] that is exactly how the handler treats
    [undefined] (it only tests them for truthiness), and the other fields
    are read only in the branch of their own frame type.  A parsed value
    that has no string [type] selects no case of the [switch], like any
    [type] string other than the four literals.  Strings are sequences of
    code units, [++] is JavaScript's [+] on strings. *)
Record WSIncomingMessage : Type := {
  type : string;
  conversation_id : string;          (* WSAuthSuccessMessage *)
  content : string;                  (* WSStreamMessage *)
  done : bool;                       (* WSStreamMessage *)
  message_id : option string;        (* WSStreamMessage, optional *)
  error : string;                    (* WSErrorMessage *)
  code : WSErrorCode                 (* WSErrorMessage *)
}.

(** The four interfaces of the union [WSIncomingMessage]. *)
Definition WSAuthSuccessMessage (cid : string) : WSIncomingMessage :=
  {| type := "auth.success"; conversation_id := cid; content := "";
     done := false; message_id := None; error := ""; code := INTERNAL_ERROR |}.

Definition WSStreamMessage (c : string) (d : bool) (mid : option string)
  : WSIncomingMessage :=
  {| type := "chat.stream"; conversation_id := ""; content := c;
     done := d; message_id := mid; error := ""; code := INTERNAL_ERROR |}.

Definition WSErrorMessage (e : string) (c : WSErrorCode) : WSIncomingMessage :=
  {| type := "chat.error"; conversation_id := ""; content := "";
     done := false; message_id := None; error := e; code := c |}.

Definition WSPingMessage : WSIncomingMessage :=
  {| type := "ping"; conversation_id := ""; content := "";
     done := false; message_id := None; error := ""; code := INTERNAL_ERROR |}.

Inductive WSConnectionStatus : Type :=
| Disconnected
| Connecting
| Authenticating
| Connected
| Error.

Inductive MessageRole : Type := System | User | Assistant.

Record Message : Type := {
  id : string;
  role : MessageRole;
  msg_content : string;
  prompt_tokens : option Z;
  completion_tokens : option Z;
  model_used : string;
  created_at : string
}.

End Types.

(* ================================================================== *)
(** * JavaScript truthiness of the values the handlers test *)
(* ================================================================== *)

Module JS.

(** A string is truthy when it is not empty. *)
Definition truthy_string (s : string) : bool :=
  match s with
  | EmptyString => false
  | String _ _ => true
  end.

End JS.

(* ================================================================== *)
(** * [stores/chatStore.ts] *)
(* ================================================================== *)

Module ChatStore.
Import Types.

Record StreamingMessage : Type := {
  id : string;
  content : string;
  isStreaming : bool
}.

Record ChatState : Type := {
  currentConversationId : option string;
  streamingMessage : option StreamingMessage;
  pendingUserMessage : option Message
}.

Definition initial : ChatState :=
  {| currentConversationId := None;
     streamingMessage := None;
     pendingUserMessage := None |}.

(** [set({ streamingMessage: v })]: a partial update merged into the state. *)
Definition set_streamingMessage (v : option StreamingMessage) (st : ChatState)
  : ChatState :=
  {| currentConversationId := currentConversationId st;
     streamingMessage := v;
     pendingUserMessage := pendingUserMessage st |}.

Definition setCurrentConversationId (i : option string) (st : ChatState)
  : ChatState :=
  {| currentConversationId := i;
     streamingMessage := streamingMessage st;
     pendingUserMessage := pendingUserMessage st |}.

Definition startStreaming (i : string) (st : ChatState) : ChatState :=
  set_streamingMessage
    (Some {| id := i; content := ""; isStreaming := true |}) st.

Definition appendStreamContent (c : string) (st : ChatState) : ChatState :=
  set_streamingMessage
    (match streamingMessage st with
     | Some sm =>
         Some {| id := id sm;
                 content := content sm ++ c;
                 isStreaming := isStreaming sm |}
     | None => None
     end) st.

Definition finishStreaming (messageId : string) (st : ChatState) : ChatState :=
  set_streamingMessage
    (match streamingMessage st with
     | Some sm =>
         Some {| id := messageId;
                 content := content sm;
                 isStreaming := false |}
     | None => None
     end) st.

Definition clearStreaming (st : ChatState) : ChatState :=
  set_streamingMessage None st.

Definition setPendingUserMessage (m : option Message) (st : ChatState)
  : ChatState :=
  {| currentConversationId := currentConversationId st;
     streamingMessage := streamingMessage st;
     pendingUserMessage := m |}.

End ChatStore.

(* ================================================================== *)
(** * [useWebSocketStore] *)
(* ================================================================== *)

Module WebSocketStore.
Import Types.

Record WSError : Type := {
  message : string;
  code : WSErrorCode
}.

Record WebSocketState : Type := {
  status : WSConnectionStatus;
  error : option WSError;
  conversationId : option string
}.

Definition initial : WebSocketState :=
  {| status := Disconnected; error := None; conversationId := None |}.

Definition setStatus (s : WSConnectionStatus) (st : WebSocketState)
  : WebSocketState :=
  {| status := s; error := error st; conversationId := conversationId st |}.

(** [status: error ? "error" : state.status]: an error object is truthy,
    [null] is not. *)
Definition setError (e : option WSError) (st : WebSocketState)
  : WebSocketState :=
  {| status := match e with Some _ => Error | None => status st end;
     error := e;
     conversationId := conversationId st |}.

Definition setConversationId (i : option string) (st : WebSocketState)
  : WebSocketState :=
  {| status := status st; error := error st; conversationId := i |}.

Definition reset (st : WebSocketState) : WebSocketState :=
  {| status := Disconnected; error := None; conversationId := None |}.

End WebSocketStore.

(* ================================================================== *)
(** * [hooks/useWebSocket.ts] *)
(* ================================================================== *)

Module UseWebSocket.
Import Types.

(** [WebSocket.readyState] of the socket held in [wsRef]. *)
Inductive ReadyState : Type := CONNECTING | OPEN | CLOSING | CLOSED.

(** The optional callbacks of [UseWebSocketOptions].  They are the
    caller's code; the hook only invokes them ([onX?.(...)]), which the
    trace records. *)
Inductive Callback : Type :=
| onConnected
| onStream (m : WSIncomingMessage)
| onError (m : WSIncomingMessage)
| onDisconnected.

Inductive Effect : Type :=
| NewWebSocket (url : string)               (* new WebSocket(wsUrl) *)
| WsSend (m : WSOutgoingMessage)            (* ws.send(JSON.stringify(m)) *)
| WsClose (code : Z)                        (* ws.close(code) *)
| SetTimeout (delay : Z)                    (* setTimeout(connect, delay) *)
| ClearTimeout (delay : Z)                  (* clearTimeout(handle) *)
| Invoke (c : Callback)                     (* onX?.(...) *)
| WebSocketStoreSet (st : WebSocketStore.WebSocketState)
| ChatStoreSet (st : ChatStore.ChatState).

(** The two stores and the three refs of the hook.  [wsRef] holds the ready
    state of the socket it points to, [reconnectTimeoutRef] the timer
    handle, represented by the delay the timer was armed with. *)
Record HookState : Type := {
  wsStore : WebSocketStore.WebSocketState;
  chatStore : ChatStore.ChatState;
  wsRef : option ReadyState;
  reconnectAttempts : Z;
  reconnectTimeoutRef : option Z
}.

Definition initial : HookState :=
  {| wsStore := WebSocketStore.initial;
     chatStore := ChatStore.initial;
     wsRef := None;
     reconnectAttempts := 0;
     reconnectTimeoutRef := None |}.

Definition maxReconnectAttempts : Z := 3.

(** [WS_BASE_URL] of [lib/constants]: its value when the build sets no
    [VITE_WS_BASE_URL]. *)
Definition WS_BASE_URL : string := "ws://localhost:8000".

(** ** The handler monad: state passing plus a trace of effects *)

Definition M (A : Type) : Type := HookState -> A * HookState * list Effect.

Definition ret {A : Type} (a : A) : M A := fun s => (a, s, []).

Definition bind {A B : Type} (m : M A) (k : A -> M B) : M B :=
  fun s =>
    match m s with
    | (a, s1, t1) =>
        match k a s1 with
        | (b, s2, t2) => (b, s2, (t1 ++ t2)%list)
        end
    end.

Notation "x <- m ;; k" := (bind m (fun x => k))
  (at level 61, m at next level, right associativity).
Notation "m ;; k" := (bind m (fun _ => k))
  (at level 61, right associativity).

Definition get : M HookState := fun s => (s, s, []).

Definition emit (e : Effect) : M unit := fun s => (tt, s, [e]).

Definition stateOf {A : Type} (r : A * HookState * list Effect) : HookState :=
  snd (fst r).

Definition traceOf {A : Type} (r : A * HookState * list Effect) : list Effect :=
  snd r.

Definition valueOf {A : Type} (r : A * HookState * list Effect) : A :=
  fst (fst r).

(** A call of a [useWebSocketStore] action: the store is replaced and its
    subscribers see the new state. *)
Definition wsAction
  (f : WebSocketStore.WebSocketState -> WebSocketStore.WebSocketState) : M unit :=
  fun s =>
    let st := f (wsStore s) in
    (tt,
     {| wsStore := st; chatStore := chatStore s; wsRef := wsRef s;
        reconnectAttempts := reconnectAttempts s;
        reconnectTimeoutRef := reconnectTimeoutRef s |},
     [WebSocketStoreSet st]).

(** A call of a [useChatStore] action. *)
Definition chatAction (f : ChatStore.ChatState -> ChatStore.ChatState) : M unit :=
  fun s =>
    let st := f (chatStore s) in
    (tt,
     {| wsStore := wsStore s; chatStore := st; wsRef := wsRef s;
        reconnectAttempts := reconnectAttempts s;
        reconnectTimeoutRef := reconnectTimeoutRef s |},
     [ChatStoreSet st]).

Definition set_wsRef (r : option ReadyState) : M unit :=
  fun s =>
    (tt,
     {| wsStore := wsStore s; chatStore := chatStore s; wsRef := r;
        reconnectAttempts := reconnectAttempts s;
        reconnectTimeoutRef := reconnectTimeoutRef s |},
     []).

Definition set_reconnectAttempts (n : Z) : M unit :=
  fun s =>
    (tt,
     {| wsStore := wsStore s; chatStore := chatStore s; wsRef := wsRef s;
        reconnectAttempts := n;
        reconnectTimeoutRef := reconnectTimeoutRef s |},
     []).

Definition set_reconnectTimeoutRef (t : option Z) : M unit :=
  fun s =>
    (tt,
     {| wsStore := wsStore s; chatStore := chatStore s; wsRef := wsRef s;
        reconnectAttempts := reconnectAttempts s;
        reconnectTimeoutRef := t |},
     []).

Definition setStatus (st : WSConnectionStatus) : M unit :=
  wsAction (WebSocketStore.setStatus st).
Definition setError (e : option WebSocketStore.WSError) : M unit :=
  wsAction (WebSocketStore.setError e).
Definition setConversationId (i : option string) : M unit :=
  wsAction (WebSocketStore.setConversationId i).
Definition reset : M unit :=
  wsAction WebSocketStore.reset.

Definition startStreaming (i : string) : M unit :=
  chatAction (ChatStore.startStreaming i).
Definition appendStreamContent (c : string) : M unit :=
  chatAction (ChatStore.appendStreamContent c).
Definition finishStreaming (i : string) : M unit :=
  chatAction (ChatStore.finishStreaming i).
Definition clearStreaming : M unit :=
  chatAction ChatStore.clearStreaming.
Definition setPendingUserMessage (m : option Message) : M unit :=
  chatAction (ChatStore.setPendingUserMessage m).

Definition when (b : bool) (m : M unit) : M unit :=
  if b then m else ret tt.

Section Hook.

(** [options.conversationId] and the access token read from the auth
    store. *)
Variable conversationId : option string.
Variable accessToken : option string.

(** ** [connect] *)
Definition connect : M unit :=
  match conversationId, accessToken with
  | Some cid, Some token =>
      if negb (JS.truthy_string cid) || negb (JS.truthy_string token)
      then ret tt
      else
        s <- get ;;
        match wsRef s with
        | Some OPEN => ret tt
        | _ =>
            setStatus Connecting ;;
            emit (NewWebSocket (WS_BASE_URL ++ "/ws/chat/" ++ cid ++ "/")) ;;
            set_wsRef (Some CONNECTING)
        end
  | _, _ => ret tt
  end.

(** ** [ws.onopen] *)
Definition onopen : M unit :=
  setStatus Authenticating ;;
  match accessToken with
  | Some token => emit (WsSend (WSAuthMessage token))
  | None => ret tt
  end.

(** ** [ws.onmessage]

    [data] is [None] when [JSON.parse(event.data)] throws (or yields [null],
    on which reading [.type] throws): the [catch] ignores it. *)
Definition onmessage (data : option WSIncomingMessage) : M unit :=
  match data with
  | None => ret tt
  | Some message =>
      if (type message =? "auth.success")%string then
        setStatus Connected ;;
        setError None ;;
        setConversationId (Some (conversation_id message)) ;;
        set_reconnectAttempts 0 ;;
        emit (Invoke onConnected)
      else if (type message =? "chat.stream")%string then
        when (JS.truthy_string (content message))
             (appendStreamContent (content message)) ;;
        match message_id message with
        | Some mid =>
            when (done message && JS.truthy_string mid) (finishStreaming mid)
        | None => ret tt
        end ;;
        emit (Invoke (onStream message))
      else if (type message =? "chat.error")%string then
        setError (Some {| WebSocketStore.message := error message;
                          WebSocketStore.code := code message |}) ;;
        clearStreaming ;;
        emit (Invoke (onError message))
      else if (type message =? "ping")%string then
        emit (WsSend WSPongMessage)
      else ret tt
  end.

(** ** [ws.onerror] *)
Definition onerror : M unit :=
  setError (Some {| WebSocketStore.message := "WebSocket connection error";
                    WebSocketStore.code := INTERNAL_ERROR |}).

(** ** [ws.onclose] *)
Definition onclose (event_code : Z) : M unit :=
  set_wsRef None ;;
  clearStreaming ;;
  if event_code =? 4001 then
    setError (Some {| WebSocketStore.message := "Authentication failed";
                      WebSocketStore.code := AUTH_FAILED |}) ;;
    reset
  else
    s <- get ;;
    if negb (event_code =? 1000)
       && (reconnectAttempts s <? maxReconnectAttempts)
    then
      set_reconnectAttempts (reconnectAttempts s + 1) ;;
      s' <- get ;;
      let delay := Z.min (1000 * 2 ^ reconnectAttempts s') 10000 in
      emit (SetTimeout delay) ;;
      set_reconnectTimeoutRef (Some delay)
    else
      reset ;;
      emit (Invoke onDisconnected).

(** ** [disconnect] *)
Definition disconnect : M unit :=
  s <- get ;;
  match reconnectTimeoutRef s with
  | Some t => emit (ClearTimeout t) ;; set_reconnectTimeoutRef None
  | None => ret tt
  end ;;
  match wsRef s with
  | Some _ => emit (WsClose 1000) ;; set_wsRef None
  | None => ret tt
  end ;;
  reset.

(** ** [sendMessage]

    [uuid] is the value [crypto.randomUUID()] returns in this call. *)
Definition sendMessage (content uuid : string) : M bool :=
  s <- get ;;
  match wsRef s with
  | Some OPEN =>
      startStreaming uuid ;;
      emit (WsSend (WSChatMessage content)) ;;
      ret true
  | _ => ret false
  end.

(** ** The hook as an event-driven machine

    Socket callbacks are delivered one at a time.  Before [onopen] runs the
    browser has moved the socket to [OPEN]. *)
Inductive Event : Type :=
| Connect                                         (* a call or the timer *)
| OnOpen
| OnMessage (data : option WSIncomingMessage)
| OnError
| OnClose (event_code : Z)
| Disconnect
| SendMessage (content uuid : string).

Definition browser_open : M unit :=
  s <- get ;;
  match wsRef s with
  | Some _ => set_wsRef (Some OPEN)
  | None => ret tt
  end.

Definition step (e : Event) : M unit :=
  match e with
  | Connect => connect
  | OnOpen => browser_open ;; onopen
  | OnMessage data => onmessage data
  | OnError => onerror
  | OnClose c => onclose c
  | Disconnect => disconnect
  | SendMessage c u => _ <- sendMessage c u ;; ret tt
  end.

Fixpoint run (es : list Event) : M unit :=
  match es with
  | [] => ret tt
  | e :: es' => step e ;; run es'
  end.

End Hook.

(** Number of reconnects scheduled in a trace. *)
Fixpoint scheduled (t : list Effect) : nat :=
  match t with
  | [] => 0%nat
  | SetTimeout _ :: t' => S (scheduled t')
  | _ :: t' => scheduled t'
  end.

(** Frames handed to the socket in a trace. *)
Fixpoint sent (t : list Effect) : list WSOutgoingMessage :=
  match t with
  | [] => []
  | WsSend m :: t' => m :: sent t'
  | _ :: t' => sent t'
  end.

End UseWebSocket.

(* ================================================================== *)
(** * [components/chat/MessageInput.tsx] and its caller [ChatArea.tsx] *)
(* ================================================================== *)

Module MessageInput.
Import Types UseWebSocket.

Section Component.

(** [String.prototype.trim] and the constant imported from [@/schemas]. *)
Variable trim : string -> string.
Variable MAX_USER_MESSAGE_LENGTH : nat.

(** The [onSend] prop. *)
Variable onSend : string -> M bool.

Definition isConnected (s : HookState) : bool :=
  match WebSocketStore.status (wsStore s) with
  | Connected => true
  | _ => false
  end.

(** [streamingMessage?.isStreaming ?? false] *)
Definition isStreaming (s : HookState) : bool :=
  match ChatStore.streamingMessage (chatStore s) with
  | Some sm => ChatStore.isStreaming sm
  | None => false
  end.

Definition canSend (s : HookState) (content : string) : bool :=
  isConnected s && negb (isStreaming s)
  && (0 <? String.length (trim content))%nat.

(** [handleSend], run on the text [content] of the textarea; the result is
    the text left in the textarea.  [uuid], [model] and [now] are what
    [crypto.randomUUID()], [selectedModel.value] and
    [new Date().toISOString()] give in this call. *)
Definition handleSend (content uuid model now : string) : M string :=
  s <- get ;;
  if negb (canSend s content) then ret content
  else
    let trimmedContent := trim content in
    if (MAX_USER_MESSAGE_LENGTH <? String.length trimmedContent)%nat
    then ret content
    else
      setPendingUserMessage
        (Some {| Types.id := uuid;
                 role := User;
                 msg_content := trimmedContent;
                 prompt_tokens := None;
                 completion_tokens := None;
                 model_used := model;
                 created_at := now |}) ;;
      success <- onSend trimmedContent ;;
      if success then ret ""
      else setPendingUserMessage None ;; ret content.

End Component.

End MessageInput.

Module ChatArea.
Import Types UseWebSocket.

(** [handleSend = (content) => sendMessage(content)]; [uuid] is the
    correlation id [sendMessage] draws. *)
Definition handleSend (uuid : string) (content : string) : M bool :=
  sendMessage content uuid.

End ChatArea.

(* ================================================================== *)
(** * Vocabulary of the properties *)
(* ================================================================== *)

Module Protocol.
Import Types UseWebSocket.

(** The accumulator of a hook state. *)
Definition accumulator (s : HookState) : option ChatStore.StreamingMessage :=
  ChatStore.streamingMessage (chatStore s).

(** In-order concatenation of the [content] fields of a list of frames. *)
Fixpoint concatContent (frames : list WSIncomingMessage) : string :=
  match frames with
  | [] => ""
  | m :: rest => content m ++ concatContent rest
  end.

(** The non-terminal ([done: false]) frames of a list. *)
Definition nonTerminal (frames : list WSIncomingMessage) : list WSIncomingMessage :=
  filter (fun m => negb (done m)) frames.

(** Every terminal frame of the list has the empty content, as the terminal
    frame [chat.stream{content: "", done: true, message_id}] has. *)
Definition terminalsEmpty (frames : list WSIncomingMessage) : Prop :=
  Forall (fun m => done m = true -> content m = "") frames.

Definition isStream (m : WSIncomingMessage) : Prop := type m = "chat.stream".

(** The id a frame finishes the accumulator with, if it does:
    [message.done && message.message_id]. *)
Definition terminalId (m : WSIncomingMessage) : option string :=
  match message_id m with
  | Some mid => if done m && JS.truthy_string mid then Some mid else None
  | None => None
  end.

(** The frames of one generation, as the protocol documents them: deltas
    [chat.stream{content, done: false}] in the order produced, then one
    terminal frame [chat.stream{content: "", done: true, message_id}]
    carrying the id of the persisted message. *)
Definition isDelta (m : WSIncomingMessage) : Prop :=
  isStream m /\ done m = false.

Definition isTerminal (m : WSIncomingMessage) (mid : string) : Prop :=
  isStream m /\ done m = true /\ content m = ""
  /\ message_id m = Some mid /\ mid <> "".

(** The frames delivered to [ws.onmessage], one event each. *)
Definition deliver (frames : list WSIncomingMessage) : list Event :=
  map (fun m => OnMessage (Some m)) frames.

(** A close that is neither the normal close nor the auth-failure close. *)
Definition abnormal (event_code : Z) : Prop :=
  event_code <> 1000 /\ event_code <> 4001.

(** Events between two closes of one losing streak: anything but a close
    and but an [auth.success] frame. *)
Definition quiet (e : Event) : bool :=
  match e with
  | OnClose _ => false
  | OnMessage (Some m) => negb (type m =? "auth.success")%string
  | _ => true
  end.

(** [sendMessage] is the only event that may start an accumulator. *)
Definition isSend (e : Event) : bool :=
  match e with
  | SendMessage _ _ => true
  | _ => false
  end.

(** [wsRef.current?.readyState === WebSocket.OPEN] *)
Definition socketOpen (s : HookState) : bool :=
  match wsRef s with
  | Some OPEN => true
  | _ => false
  end.

(** A session right after [auth.success]: socket open, status
    [connected], nothing streaming. *)
Definition connectedState : HookState :=
  {| wsStore := {| WebSocketStore.status := Connected;
                   WebSocketStore.error := None;
                   WebSocketStore.conversationId := Some "conv-1" |};
     chatStore := ChatStore.initial;
     wsRef := Some OPEN;
     reconnectAttempts := 0;
     reconnectTimeoutRef := None |}.

(** The same session after [sendMessage("hi")] drew the correlation id
    ["c0"]: a fresh accumulator. *)
Definition streamingState : HookState :=
  stateOf (sendMessage "hi" "c0" connectedState).

End Protocol.

(* ================================================================== *)
(** * Vocabulary of the session-level properties *)
(* ================================================================== *)

Module Session.
Import Types UseWebSocket Protocol.

(** An [auth.success] frame delivered to [ws.onmessage]. *)
Definition isAuthSuccess (e : Event) : bool :=
  match e with
  | OnMessage (Some m) => (type m =? "auth.success")%string
  | _ => false
  end.

Definition isOnOpen (e : Event) : bool :=
  match e with
  | OnOpen => true
  | _ => false
  end.

(** The delays of the timers armed in a trace, in order. *)
Fixpoint delays (t : list Effect) : list Z :=
  match t with
  | [] => []
  | SetTimeout d :: t' => d :: delays t'
  | _ :: t' => delays t'
  end.

(** The callbacks invoked in a trace, in order. *)
Fixpoint invoked (t : list Effect) : list Callback :=
  match t with
  | [] => []
  | Invoke c :: t' => c :: invoked t'
  | _ :: t' => invoked t'
  end.

(** The sockets opened in a trace: their URLs, in order. *)
Fixpoint opened (t : list Effect) : list string :=
  match t with
  | [] => []
  | NewWebSocket url :: t' => url :: opened t'
  | _ :: t' => opened t'
  end.

(** Whenever the store's status is [error], an error object is recorded. *)
Definition errorRecorded (s : HookState) : Prop :=
  WebSocketStore.status (wsStore s) = Error ->
  WebSocketStore.error (wsStore s) <> None.

End Session.

(* ================================================================== *)
(** * [ChatArea.tsx]: the callbacks it passes to the hook, and what it
      renders *)
(* ================================================================== *)

Module ChatAreaView.
Import Types UseWebSocket.

(** The [onStream] option: on a [done] frame the pending user message is
    dropped and [invalidateMessages()] is called.  The result tells
    whether [invalidateMessages()] was called. *)
Definition onStream (message : WSIncomingMessage) : M bool :=
  if done message
  then setPendingUserMessage None ;; ret true
  else ret false.

(** The [onError] option. *)
Definition onError : M unit :=
  setPendingUserMessage None ;;
  clearStreaming.

(** [ChatArea] passes [onStream] and [onError] only; [onConnected?.()] and
    [onDisconnected?.()] find no callback. *)
Definition invoke (c : Callback) : M bool :=
  match c with
  | UseWebSocket.onStream m => onStream m
  | UseWebSocket.onError _ => onError ;; ret false
  | onConnected => ret false
  | onDisconnected => ret false
  end.

(** The callbacks a handler invoked.  In every branch of the hook's
    handlers the callback is the last statement, so running it after the
    handler's own updates is the order of the source. *)
Fixpoint invokeAll (t : list Effect) : M bool :=
  match t with
  | [] => ret false
  | Invoke c :: t' =>
      a <- invoke c ;;
      b <- invokeAll t' ;;
      ret (a || b)
  | _ :: t' => invokeAll t'
  end.

(** One event of the hook as mounted by [ChatArea]; the result tells
    whether the message queries were invalidated. *)
Definition dispatch (cid tok : option string) (e : Event) : M bool :=
  fun s =>
    match step cid tok e s with
    | (_, s1, t1) =>
        match invokeAll t1 s1 with
        | (b, s2, t2) => (b, s2, (t1 ++ t2)%list)
        end
    end.

Fixpoint dispatchAll (cid tok : option string) (es : list Event) : M unit :=
  match es with
  | [] => ret tt
  | e :: es' => _ <- dispatch cid tok e ;; dispatchAll cid tok es'
  end.

(** Two states that differ at most in the pending user message. *)
Definition sameButPending (s s' : HookState) : Prop :=
  wsStore s = wsStore s'
  /\ wsRef s = wsRef s'
  /\ reconnectAttempts s = reconnectAttempts s'
  /\ reconnectTimeoutRef s = reconnectTimeoutRef s'
  /\ ChatStore.streamingMessage (chatStore s)
     = ChatStore.streamingMessage (chatStore s')
  /\ ChatStore.currentConversationId (chatStore s)
     = ChatStore.currentConversationId (chatStore s').

(** What [ChatArea] returns.  [ErrorPage d] carries [error?.message] when
    it is a non-empty string, [None] standing for the fixed default text;
    [Welcome] and [Conversation] are the two renderings that contain a
    [MessageInput]. *)
Inductive View : Type :=
| Spinner (st : WSConnectionStatus)
| ErrorPage (description : option string)
| LoadingMessages
| Welcome
| Conversation.

(** [messages.length > 0 || pendingUserMessage || streamingMessage] *)
Definition hasMessages (fetched : nat) (s : HookState) : bool :=
  (0 <? fetched)%nat
  || match ChatStore.pendingUserMessage (chatStore s) with
     | Some _ => true
     | None => false
     end
  || match ChatStore.streamingMessage (chatStore s) with
     | Some _ => true
     | None => false
     end.

Definition isErrorStatus (st : WSConnectionStatus) : bool :=
  match st with
  | Error => true
  | _ => false
  end.

(** [error?.message || <default text>] *)
Definition description (e : option WebSocketStore.WSError) : option string :=
  match e with
  | Some e =>
      if JS.truthy_string (WebSocketStore.message e)
      then Some (WebSocketStore.message e)
      else None
  | None => None
  end.

(** The chain of early returns of [ChatArea]; [fetched] is
    [messages.length]. *)
Definition view (s : HookState) (isLoadingMessages : bool) (fetched : nat)
  : View :=
  let status := WebSocketStore.status (wsStore s) in
  let error := WebSocketStore.error (wsStore s) in
  match status with
  | Connecting | Authenticating => Spinner status
  | _ =>
      if isErrorStatus status
         || match error with Some _ => true | None => false end
      then ErrorPage (description error)
      else if isLoadingMessages then LoadingMessages
      else if negb (hasMessages fetched s) then Welcome
      else Conversation
  end.

Definition rendersInput (v : View) : bool :=
  match v with
  | Welcome | Conversation => true
  | _ => false
  end.

End ChatAreaView.

(* ================================================================== *)
(** * [MessageList.tsx] *)
(* ================================================================== *)

Module MessageList.
Import Types.

(** [ListItem = Message | StreamingItem] *)
Inductive ListItem : Type :=
| MessageItem (m : Message)
| StreamingItem (sm : ChatStore.StreamingMessage).

Definition isStreamingItem (item : ListItem) : bool :=
  match item with
  | StreamingItem _ => true
  | MessageItem _ => false
  end.

(** [messages.some((m) => m.id === streamingMessage.id)] *)
Definition fetchedHas (messages : list Message) (i : string) : bool :=
  existsb (fun m => (Types.id m =? i)%string) messages.

Definition allItems (messages : list Message) (st : ChatStore.ChatState)
  : list ListItem :=
  (map MessageItem messages
   ++ match ChatStore.pendingUserMessage st with
      | Some p => [MessageItem p]
      | None => []
      end
   ++ match ChatStore.streamingMessage st with
      | Some sm =>
          if negb (fetchedHas messages (ChatStore.id sm))
          then [StreamingItem sm]
          else []
      | None => []
      end)%list.

(** [messages.length === 0 && !pendingUserMessage && !streamingMessage] *)
Definition showsEmptyState (messages : list Message) (st : ChatStore.ChatState)
  : bool :=
  (length messages =? 0)%nat
  && match ChatStore.pendingUserMessage st with
     | Some _ => false
     | None => true
     end
  && match ChatStore.streamingMessage st with
     | Some _ => false
     | None => true
     end.

End MessageList.

(* ================================================================== *)
(** * [hooks/queries/useMessages.ts] *)
(* ================================================================== *)

Module UseMessages.
Import Types.

Record PaginatedMessages : Type := {
  messages : list Message;
  total : Z;
  page : Z;
  page_size : Z;
  has_more : bool
}.

(** The infinite query's cached data. *)
Record InfiniteData : Type := {
  pages : list PaginatedMessages;
  pageParams : list Z
}.

(** The [messages] field [select] computes:
    [data.pages.flatMap((page) => page.messages)]. *)
Definition select (data : InfiniteData) : list Message :=
  flat_map messages (pages data).

(** [a[i] = x] on an array, for an index inside it. *)
Definition assign {A : Type} (i : nat) (x : A) (a : list A) : list A :=
  (firstn i a ++ x :: skipn (S i) a)%list.

Definition truthy (o : option string) : bool :=
  match o with
  | Some s => JS.truthy_string s
  | None => false
  end.

(** The updater [useAddOptimisticMessage] hands to [setQueryData]. *)
Definition updater (message : Message) (old : option InfiniteData)
  : option InfiniteData :=
  match old with
  | None => None
  | Some o =>
      let newPages := pages o in
      let newPages :=
        if (0 <? length newPages)%nat then
          match nth_error newPages (length newPages - 1) with
          | Some last =>
              let lastPage :=
                {| messages := (messages last ++ [message])%list;
                   total := total last;
                   page := page last;
                   page_size := page_size last;
                   has_more := has_more last |} in
              assign (length newPages - 1) lastPage newPages
          | None => newPages
          end
        else newPages in
      Some {| pages := newPages; pageParams := pageParams o |}
  end.

(** The function [useAddOptimisticMessage(conversationId)] returns, run on
    the cache entry of that conversation. *)
Definition addOptimisticMessage (conversationId : option string)
  (message : Message) (cache : option InfiniteData) : option InfiniteData :=
  if negb (truthy conversationId) then cache
  else updater message cache.

End UseMessages.

(* ================================================================== *)
(** * [lib/utils.ts]: [formatRelativeTime] *)
(* ================================================================== *)

Module Utils.

(** What [formatRelativeTime] returns: the fixed text for "just now", the
    templates [`${diffMins} ...`], [`${diffHours} ...`] and
    [`${diffDays} ...`] with the number they interpolate, or
    [formatDate(d)]. *)
Inductive RelativeTime : Type :=
| JustNow
| MinutesAgo (diffMins : Z)
| HoursAgo (diffHours : Z)
| DaysAgo (diffDays : Z)
| FormattedDate.

(** [diffMs] is [now.getTime() - d.getTime()], a whole number of
    milliseconds; [Math.floor(x / k)] on such numbers is [Z.div]. *)
Definition formatRelativeTime (diffMs : Z) : RelativeTime :=
  let diffSecs := diffMs / 1000 in
  let diffMins := diffSecs / 60 in
  let diffHours := diffMins / 60 in
  let diffDays := diffHours / 24 in
  if diffSecs <? 60 then JustNow
  else if diffMins <? 60 then MinutesAgo diffMins
  else if diffHours <? 24 then HoursAgo diffHours
  else if diffDays <? 7 then DaysAgo diffDays
  else FormattedDate.

End Utils.

(* ================================================================== *)
(** * [stores/authStore.ts], [hooks/queries/useAuth.ts] and the two
      guarded layouts *)
(* ================================================================== *)

Module AuthStore.

Record User : Type := {
  id : string;
  email : string;
  username : string
}.

Record AuthState : Type := {
  user : option User;
  accessToken : option string;
  isAuthenticated : bool;
  isInitialized : bool
}.

Definition initial : AuthState :=
  {| user := None; accessToken := None;
     isAuthenticated := false; isInitialized := false |}.

(** [!!user] for [User | null]. *)
Definition present {A : Type} (o : option A) : bool :=
  match o with
  | Some _ => true
  | None => false
  end.

Definition setUser (u : option User) (st : AuthState) : AuthState :=
  {| user := u; accessToken := accessToken st;
     isAuthenticated := present u; isInitialized := isInitialized st |}.

Definition setAccessToken (token : option string) (st : AuthState) : AuthState :=
  {| user := user st; accessToken := token;
     isAuthenticated := isAuthenticated st; isInitialized := isInitialized st |}.

Definition login (u : User) (token : string) (st : AuthState) : AuthState :=
  {| user := Some u; accessToken := Some token;
     isAuthenticated := true; isInitialized := true |}.

Definition logout (st : AuthState) : AuthState :=
  {| user := None; accessToken := None;
     isAuthenticated := false; isInitialized := isInitialized st |}.

Definition setInitialized (b : bool) (st : AuthState) : AuthState :=
  {| user := user st; accessToken := accessToken st;
     isAuthenticated := isAuthenticated st; isInitialized := b |}.

(** The actions of the store, as calls. *)
Inductive Action : Type :=
| SetUser (u : option User)
| SetAccessToken (token : option string)
| Login (u : User) (token : string)
| Logout
| SetInitialized (b : bool).

Definition act (a : Action) (st : AuthState) : AuthState :=
  match a with
  | SetUser u => setUser u st
  | SetAccessToken t => setAccessToken t st
  | Login u t => login u t st
  | Logout => logout st
  | SetInitialized b => setInitialized b st
  end.

Definition actAll (l : list Action) (st : AuthState) : AuthState :=
  fold_left (fun s a => act a s) l st.

End AuthStore.

Module UseAuth.
Import AuthStore.

(** The effect of [useAuthInit].  [refresh] is the access token
    [authApi.refresh()] resolves with, [None] when it rejects; [getMe]
    likewise for [authApi.getMe()].  The [try] stops at the first
    rejection, the [catch] logs out, the [finally] marks the store
    initialized.  No other store action runs between its steps. *)
Definition initAuth (refresh : option string) (getMe : option User)
  (st : AuthState) : AuthState :=
  if isInitialized st then st
  else
    let st1 :=
      match refresh with
      | Some access =>
          let st' := setAccessToken (Some access) st in
          match getMe with
          | Some u => setUser (Some u) st'
          | None => logout st'
          end
      | None => logout st
      end in
    setInitialized true st1.

End UseAuth.

Module Layouts.
Import AuthStore.

Inductive Rendered : Type :=
| FullPageSpinner
| Navigate (to : string)
| Outlet.

Definition AuthLayout (st : AuthState) : Rendered :=
  if negb (isInitialized st) then FullPageSpinner
  else if isAuthenticated st then Navigate "/chat"
  else Outlet.

Definition ChatLayout (st : AuthState) : Rendered :=
  if negb (isInitialized st) then FullPageSpinner
  else if negb (isAuthenticated st) then Navigate "/login"
  else Outlet.

End Layouts.

(* ================================================================== *)
(** * Properties *)
(* ================================================================== *)

Import Types UseWebSocket Protocol.

(** ** Strings *)

Lemma append_empty_r (s : string) : s ++ "" = s.
Proof. induction s as [|a s IH]; simpl; [reflexivity | now rewrite IH]. Qed.

Lemma append_assoc (a b c : string) : (a ++ b) ++ c = a ++ (b ++ c).
Proof. induction a as [|x a IH]; simpl; [reflexivity | now rewrite IH]. Qed.

Lemma truthy_string_false (s : string) : JS.truthy_string s = false -> s = "".
Proof. destruct s; [reflexivity | discriminate]. Qed.

(** ** The monad *)

Lemma bind_run {A B : Type} (m : M A) (k : A -> M B) (s : HookState) :
  bind m k s =
  (valueOf (k (valueOf (m s)) (stateOf (m s))),
   stateOf (k (valueOf (m s)) (stateOf (m s))),
   (traceOf (m s) ++ traceOf (k (valueOf (m s)) (stateOf (m s))))%list).
Proof.
  unfold bind, valueOf, stateOf, traceOf.
  destruct (m s) as [[a s1] t1]; simpl.
  destruct (k a s1) as [[b s2] t2]; reflexivity.
Qed.

Lemma run_cons (cid tok : option string) (e : Event) (es : list Event)
  (s : HookState) :
  stateOf (run cid tok (e :: es) s)
  = stateOf (run cid tok es (stateOf (step cid tok e s)))
  /\ traceOf (run cid tok (e :: es) s)
     = (traceOf (step cid tok e s)
        ++ traceOf (run cid tok es (stateOf (step cid tok e s))))%list.
Proof. simpl run. rewrite bind_run. split; reflexivity. Qed.

Lemma run_app (cid tok : option string) (es1 es2 : list Event) (s : HookState) :
  stateOf (run cid tok (es1 ++ es2) s)
  = stateOf (run cid tok es2 (stateOf (run cid tok es1 s)))
  /\ traceOf (run cid tok (es1 ++ es2) s)
     = (traceOf (run cid tok es1 s)
        ++ traceOf (run cid tok es2 (stateOf (run cid tok es1 s))))%list.
Proof.
  revert s. induction es1 as [|e es1 IH]; intro s.
  - split; reflexivity.
  - change ((e :: es1) ++ es2)%list with (e :: (es1 ++ es2))%list.
    destruct (run_cons cid tok e (es1 ++ es2)%list s) as [Hs Ht].
    destruct (run_cons cid tok e es1 s) as [Hs1 Ht1].
    destruct (IH (stateOf (step cid tok e s))) as [IHs IHt].
    rewrite Hs, Ht, Hs1, Ht1, IHs, IHt. split; [reflexivity|].
    now rewrite app_assoc.
Qed.

Lemma onmessage_stream (s : HookState) (m : WSIncomingMessage)
  (sm : ChatStore.StreamingMessage) :
  isStream m ->
  accumulator s = Some sm ->
  accumulator (stateOf (onmessage (Some m) s))
  = Some {| ChatStore.id :=
              match terminalId m with Some mid => mid | None => ChatStore.id sm end;
            ChatStore.content := ChatStore.content sm ++ content m;
            ChatStore.isStreaming :=
              match terminalId m with
              | Some _ => false
              | None => ChatStore.isStreaming sm
              end |}.
Proof.
  unfold isStream, accumulator, terminalId. intros Ht Hacc.
  unfold onmessage. rewrite Ht. simpl String.eqb. cbv iota.
  destruct s as [ws ch r n t]. simpl in Hacc.
  destruct sm as [i c b].
  destruct (content m) as [|a cs] eqn:Hc;
    destruct (message_id m) as [[|x mid]|]; destruct (done m);
    cbn; rewrite Hacc; cbn; rewrite ?append_empty_r; reflexivity.
Qed.

Lemma concatContent_nonTerminal (frames : list WSIncomingMessage) :
  terminalsEmpty frames ->
  concatContent (nonTerminal frames) = concatContent frames.
Proof.
  unfold terminalsEmpty, nonTerminal.
  induction 1 as [|m frames Hm _ IH]; simpl; [reflexivity|].
  destruct (done m) eqn:Hd; simpl.
  - rewrite (Hm eq_refl). simpl. exact IH.
  - now rewrite IH.
Qed.

Lemma run_stream_content (cid tok : option string)
  (frames : list WSIncomingMessage) :
  forall (s : HookState) (sm : ChatStore.StreamingMessage),
    accumulator s = Some sm ->
    Forall isStream frames ->
    exists sm',
      accumulator (stateOf (run cid tok (deliver frames) s)) = Some sm'
      /\ ChatStore.content sm'
         = ChatStore.content sm ++ concatContent frames.
Proof.
  induction frames as [|m frames IH]; intros s sm Hacc Hall.
  - exists sm. split; [exact Hacc | now rewrite append_empty_r].
  - inversion Hall as [|m' fs' Hm Hrest]; subst.
    change (deliver (m :: frames)) with (OnMessage (Some m) :: deliver frames).
    destruct (run_cons cid tok (OnMessage (Some m)) (deliver frames) s) as [Hs _].
    rewrite Hs. simpl step.
    pose proof (onmessage_stream s m sm Hm Hacc) as Hstep.
    destruct (IH _ _ Hstep Hrest) as [sm' [Hacc' Hc]].
    exists sm'. split; [exact Hacc'|].
    rewrite Hc. simpl. now rewrite append_assoc.
Qed.

(** ** C1: accumulation of streamed content *)

(** Frames no generation produces: a terminal frame that carries content.
    The handler appends [content] before it looks at [done], so the
    frames [{content: "a", done: false}] and
    [{content: "b", done: true, message_id: "m1"}] leave the content
    ["ab"]. *)
Example terminal_content_is_appended :
  let frames := [WSStreamMessage "a" false None;
                 WSStreamMessage "b" true (Some "m1")] in
  accumulator (stateOf (run None None (deliver frames) streamingState))
  = Some {| ChatStore.id := "m1"; ChatStore.content := "ab";
            ChatStore.isStreaming := false |}.
Proof. reflexivity. Qed.

(** Any sequence of [chat.stream] frames, whatever its terminal frames
    carry: the accumulator's content grows by the concatenation of the
    [content] fields of all the frames, in order. *)
Lemma stream_accumulation (cid tok : option string) (s : HookState)
  (sm : ChatStore.StreamingMessage) (frames : list WSIncomingMessage) :
  accumulator s = Some sm ->
  Forall isStream frames ->
  exists sm',
    accumulator (stateOf (run cid tok (deliver frames) s)) = Some sm'
    /\ ChatStore.content sm' = ChatStore.content sm ++ concatContent frames
    /\ (terminalsEmpty frames ->
        ChatStore.content sm'
        = ChatStore.content sm ++ concatContent (nonTerminal frames)).
Proof.
  intros Hacc Hall.
  destruct (run_stream_content cid tok frames s sm Hacc Hall)
    as [sm' [Hacc' Hc]].
  exists sm'. repeat split; try assumption.
  intro Hte. now rewrite concatContent_nonTerminal.
Qed.

Lemma terminalId_delta (m : WSIncomingMessage) :
  done m = false -> terminalId m = None.
Proof.
  unfold terminalId. intro Hd. rewrite Hd.
  destruct (message_id m); reflexivity.
Qed.

Lemma terminalId_terminal (m : WSIncomingMessage) (mid : string) :
  isTerminal m mid -> terminalId m = Some mid.
Proof.
  unfold isTerminal, terminalId. intros [_ [Hd [_ [Hid Hne]]]].
  rewrite Hid, Hd. destruct mid; [congruence | reflexivity].
Qed.

(** The deltas of a generation only append: id and flag are kept. *)
Lemma run_deltas (cid tok : option string) (deltas : list WSIncomingMessage) :
  forall (s : HookState) (sm : ChatStore.StreamingMessage),
    accumulator s = Some sm ->
    Forall isDelta deltas ->
    accumulator (stateOf (run cid tok (deliver deltas) s))
    = Some {| ChatStore.id := ChatStore.id sm;
              ChatStore.content := ChatStore.content sm ++ concatContent deltas;
              ChatStore.isStreaming := ChatStore.isStreaming sm |}.
Proof.
  induction deltas as [|m deltas IH]; intros s sm Hacc Hall.
  - simpl concatContent. rewrite append_empty_r.
    destruct sm; exact Hacc.
  - inversion Hall as [|m' ds' [Hm Hd] Hrest]; subst.
    change (deliver (m :: deltas)) with (OnMessage (Some m) :: deliver deltas).
    destruct (run_cons cid tok (OnMessage (Some m)) (deliver deltas) s)
      as [Hs _].
    rewrite Hs.
    change (step cid tok (OnMessage (Some m)) s) with (onmessage (Some m) s).
    pose proof (onmessage_stream s m sm Hm Hacc) as Hstep.
    rewrite (terminalId_delta m Hd) in Hstep.
    rewrite (IH _ _ Hstep Hrest). simpl. now rewrite append_assoc.
Qed.

Lemma nonTerminal_generation (deltas : list WSIncomingMessage)
  (terminal : WSIncomingMessage) (mid : string) :
  Forall isDelta deltas ->
  isTerminal terminal mid ->
  nonTerminal (deltas ++ [terminal]) = deltas.
Proof.
  unfold nonTerminal. intros Hall [_ [Hd _]].
  rewrite filter_app. simpl. rewrite Hd. simpl. rewrite app_nil_r.
  induction Hall as [|m ds [_ Hm] _ IH]; simpl; [reflexivity|].
  rewrite Hm. simpl. now rewrite IH.
Qed.

(** C1.  For every generation (deltas with [done: false], then the
    terminal frame with [done: true], the empty content and a
    [message_id]), processed on the accumulator [sendMessage] started:
    after the deltas the accumulator's content is the in-order
    concatenation of their [content] fields, each once; processing the
    terminal frame replaces the correlation id by the [message_id], sets
    [isStreaming] to false and leaves the content as it was; so after the
    whole generation the content is the concatenation of the [content]
    fields of its non-terminal frames.  The same holds on an accumulator
    that already has content, which then comes first. *)
Theorem generation_accumulation (cid tok : option string) (s : HookState)
  (sm : ChatStore.StreamingMessage) (deltas : list WSIncomingMessage)
  (terminal : WSIncomingMessage) (mid : string) :
  accumulator s = Some sm ->
  Forall isDelta deltas ->
  isTerminal terminal mid ->
  let frames := (deltas ++ [terminal])%list in
  let s1 := stateOf (run cid tok (deliver deltas) s) in
  let s2 := stateOf (onmessage (Some terminal) s1) in
  accumulator s1
  = Some {| ChatStore.id := ChatStore.id sm;
            ChatStore.content := ChatStore.content sm ++ concatContent deltas;
            ChatStore.isStreaming := ChatStore.isStreaming sm |}
  /\ accumulator s2
     = Some {| ChatStore.id := mid;
               ChatStore.content := ChatStore.content sm ++ concatContent deltas;
               ChatStore.isStreaming := false |}
  /\ option_map ChatStore.content (accumulator s2)
     = option_map ChatStore.content (accumulator s1)
  /\ stateOf (run cid tok (deliver frames) s) = s2
  /\ option_map ChatStore.content
       (accumulator (stateOf (run cid tok (deliver frames) s)))
     = Some (ChatStore.content sm ++ concatContent (nonTerminal frames))
  /\ (ChatStore.content sm = "" ->
      option_map ChatStore.content
        (accumulator (stateOf (run cid tok (deliver frames) s)))
      = Some (concatContent (nonTerminal frames))).
Proof.
  intros Hacc Hdeltas Hterm. cbv zeta.
  pose proof (run_deltas cid tok deltas s sm Hacc Hdeltas) as H1.
  assert (H2 : accumulator
                 (stateOf (onmessage (Some terminal)
                             (stateOf (run cid tok (deliver deltas) s))))
               = Some {| ChatStore.id := mid;
                         ChatStore.content :=
                           ChatStore.content sm ++ concatContent deltas;
                         ChatStore.isStreaming := false |}).
  { destruct Hterm as [Hm [Hd [Hc [Hid Hne]]]].
    rewrite (onmessage_stream _ terminal _ Hm H1).
    rewrite (terminalId_terminal terminal mid
               (conj Hm (conj Hd (conj Hc (conj Hid Hne))))).
    simpl. rewrite Hc. now rewrite append_empty_r. }
  assert (H3 : stateOf (run cid tok (deliver (deltas ++ [terminal])) s)
               = stateOf (onmessage (Some terminal)
                            (stateOf (run cid tok (deliver deltas) s)))).
  { unfold deliver. rewrite map_app. simpl map.
    destruct (run_app cid tok
                (map (fun m => OnMessage (Some m)) deltas)
                [OnMessage (Some terminal)] s) as [Hs _].
    rewrite Hs.
    destruct (run_cons cid tok (OnMessage (Some terminal)) []
                (stateOf (run cid tok
                            (map (fun m => OnMessage (Some m)) deltas) s)))
      as [Hs' _].
    rewrite Hs'. reflexivity. }
  rewrite (nonTerminal_generation deltas terminal mid Hdeltas Hterm).
  rewrite H3, H2, H1. repeat split.
  intro Hempty. simpl. now rewrite Hempty.
Qed.

Lemma generation_accumulation_witness :
  let deltas := [WSStreamMessage "a" false None;
                 WSStreamMessage "b" false None] in
  let terminal := WSStreamMessage "" true (Some "m1") in
  let sm := {| ChatStore.id := "c0"; ChatStore.content := "";
               ChatStore.isStreaming := true |} in
  let frames := (deltas ++ [terminal])%list in
  let s1 := stateOf (run None None (deliver deltas) streamingState) in
  let s2 := stateOf (onmessage (Some terminal) s1) in
  accumulator s1
  = Some {| ChatStore.id := ChatStore.id sm;
            ChatStore.content := ChatStore.content sm ++ concatContent deltas;
            ChatStore.isStreaming := ChatStore.isStreaming sm |}
  /\ accumulator s2
     = Some {| ChatStore.id := "m1";
               ChatStore.content := ChatStore.content sm ++ concatContent deltas;
               ChatStore.isStreaming := false |}
  /\ option_map ChatStore.content (accumulator s2)
     = option_map ChatStore.content (accumulator s1)
  /\ stateOf (run None None (deliver frames) streamingState) = s2
  /\ option_map ChatStore.content
       (accumulator (stateOf (run None None (deliver frames) streamingState)))
     = Some (ChatStore.content sm ++ concatContent (nonTerminal frames))
  /\ (ChatStore.content sm = "" ->
      option_map ChatStore.content
        (accumulator (stateOf (run None None (deliver frames) streamingState)))
      = Some (concatContent (nonTerminal frames))).
Proof.
  apply (generation_accumulation None None streamingState
           {| ChatStore.id := "c0"; ChatStore.content := "";
              ChatStore.isStreaming := true |}
           [WSStreamMessage "a" false None; WSStreamMessage "b" false None]
           (WSStreamMessage "" true (Some "m1")) "m1").
  - reflexivity.
  - repeat constructor.
  - repeat split. discriminate.
Defined.

(** ** Transport close *)

Ltac unfold_handler :=
  unfold step, onclose, onerror, onopen, browser_open, connect, disconnect,
    sendMessage, onmessage, when,
    setStatus, setError, setConversationId, reset,
    startStreaming, appendStreamContent, finishStreaming, clearStreaming,
    setPendingUserMessage,
    wsAction, chatAction, set_wsRef, set_reconnectAttempts,
    set_reconnectTimeoutRef, bind, ret, get, emit.

Ltac hsimpl :=
  cbn -[Z.mul Z.pow Z.min Z.add Z.ltb Z.eqb String.eqb append].

Ltac run_handler := unfold_handler; hsimpl.

Lemma scheduled_app (t1 t2 : list Effect) :
  scheduled (t1 ++ t2) = (scheduled t1 + scheduled t2)%nat.
Proof.
  induction t1 as [|e t1 IH]; simpl; [reflexivity|].
  destruct e; simpl; now rewrite IH.
Qed.

(** The retry branch of [ws.onclose], in one equation. *)
Lemma onclose_retry (s : HookState) (event_code : Z) :
  abnormal event_code ->
  reconnectAttempts s < maxReconnectAttempts ->
  onclose event_code s
  = (tt,
     {| wsStore := wsStore s;
        chatStore := ChatStore.clearStreaming (chatStore s);
        wsRef := None;
        reconnectAttempts := reconnectAttempts s + 1;
        reconnectTimeoutRef :=
          Some (Z.min (1000 * 2 ^ (reconnectAttempts s + 1)) 10000) |},
     [ChatStoreSet (ChatStore.clearStreaming (chatStore s));
      SetTimeout (Z.min (1000 * 2 ^ (reconnectAttempts s + 1)) 10000)]).
Proof.
  intros [H1000 H4001] Hlt. run_handler.
  destruct (Z.eqb_spec event_code 4001) as [|_]; [contradiction|].
  destruct (Z.eqb_spec event_code 1000) as [|_]; [contradiction|]. hsimpl.
  destruct (Z.ltb_spec (reconnectAttempts s) maxReconnectAttempts) as [_|Hge];
    [|lia].
  reflexivity.
Qed.

(** The give-up branch of [ws.onclose], in one equation. *)
Lemma onclose_give_up (s : HookState) (event_code : Z) :
  event_code <> 4001 ->
  event_code = 1000 \/ maxReconnectAttempts <= reconnectAttempts s ->
  onclose event_code s
  = (tt,
     {| wsStore := WebSocketStore.initial;
        chatStore := ChatStore.clearStreaming (chatStore s);
        wsRef := None;
        reconnectAttempts := reconnectAttempts s;
        reconnectTimeoutRef := reconnectTimeoutRef s |},
     [ChatStoreSet (ChatStore.clearStreaming (chatStore s));
      WebSocketStoreSet WebSocketStore.initial;
      Invoke onDisconnected]).
Proof.
  intros H4001 Hor. run_handler.
  destruct (Z.eqb_spec event_code 4001) as [|_]; [contradiction|].
  destruct (Z.eqb_spec event_code 1000) as [|Hne]; [reflexivity|]. hsimpl.
  destruct (Z.ltb_spec (reconnectAttempts s) maxReconnectAttempts) as [Hlt|_];
    [|reflexivity].
  destruct Hor; [contradiction | lia].
Qed.

(** ** C2: the backoff schedule *)

(** C2.  On a close whose code is neither 1000 nor 4001, with
    [reconnectAttempts] below 3 (and not negative), the handler increments
    the counter and schedules exactly one reconnect, and nothing else
    leaves the hook; the delay is [min(1000 * 2^attempt, 10000)] for the
    incremented counter [attempt], so it is at most 10000 and is 2000, 4000
    and 8000 for the attempts 1, 2 and 3. *)
Theorem reconnect_backoff (s : HookState) (event_code : Z) :
  abnormal event_code ->
  0 <= reconnectAttempts s < maxReconnectAttempts ->
  let r := onclose event_code s in
  let attempt := reconnectAttempts (stateOf r) in
  let delay := Z.min (1000 * 2 ^ attempt) 10000 in
  attempt = reconnectAttempts s + 1
  /\ scheduled (traceOf r) = 1%nat
  /\ traceOf r = [ChatStoreSet (ChatStore.clearStreaming (chatStore s));
                  SetTimeout delay]
  /\ reconnectTimeoutRef (stateOf r) = Some delay
  /\ delay <= 10000
  /\ ((attempt = 1 /\ delay = 2000)
      \/ (attempt = 2 /\ delay = 4000)
      \/ (attempt = 3 /\ delay = 8000)).
Proof.
  intros Hab [H0 H3]. cbv zeta.
  rewrite (onclose_retry s event_code Hab H3).
  unfold stateOf, traceOf; cbn [fst snd reconnectAttempts reconnectTimeoutRef
                                  scheduled].
  repeat split.
  - apply Z.le_min_r.
  - unfold maxReconnectAttempts in H3.
    assert (Hc : reconnectAttempts s = 0 \/ reconnectAttempts s = 1
                 \/ reconnectAttempts s = 2) by lia.
    destruct Hc as [Hc|[Hc|Hc]]; rewrite Hc.
    + left. split; reflexivity.
    + right; left. split; reflexivity.
    + right; right. split; reflexivity.
Qed.

Lemma reconnect_backoff_witness :
  let s := connectedState in
  let r := onclose 1006 s in
  let attempt := reconnectAttempts (stateOf r) in
  let delay := Z.min (1000 * 2 ^ attempt) 10000 in
  attempt = reconnectAttempts s + 1
  /\ scheduled (traceOf r) = 1%nat
  /\ traceOf r = [ChatStoreSet (ChatStore.clearStreaming (chatStore s));
                  SetTimeout delay]
  /\ reconnectTimeoutRef (stateOf r) = Some delay
  /\ delay <= 10000
  /\ ((attempt = 1 /\ delay = 2000)
      \/ (attempt = 2 /\ delay = 4000)
      \/ (attempt = 3 /\ delay = 8000)).
Proof.
  apply (reconnect_backoff connectedState 1006).
  - split; discriminate.
  - unfold maxReconnectAttempts; simpl; lia.
Defined.

(** ** C3: the auth-failure close *)

(** C3.  On a close with code 4001, whatever the state and the counter:
    the handler updates the store to status [error] with the error
    [AUTH_FAILED] and then resets it, so the store ends [disconnected] with
    no error and no conversation; no timer is armed, nothing else leaves
    the hook, and [reconnectAttempts] and the timer ref keep their
    values. *)
Theorem auth_failure_close (s : HookState) :
  let r := onclose 4001 s in
  let failed :=
    WebSocketStore.setError
      (Some {| WebSocketStore.message := "Authentication failed";
               WebSocketStore.code := AUTH_FAILED |}) (wsStore s) in
  traceOf r = [ChatStoreSet (ChatStore.clearStreaming (chatStore s));
               WebSocketStoreSet failed;
               WebSocketStoreSet WebSocketStore.initial]
  /\ WebSocketStore.status failed = Error
  /\ WebSocketStore.error failed
     = Some {| WebSocketStore.message := "Authentication failed";
               WebSocketStore.code := AUTH_FAILED |}
  /\ scheduled (traceOf r) = 0%nat
  /\ reconnectAttempts (stateOf r) = reconnectAttempts s
  /\ reconnectTimeoutRef (stateOf r) = reconnectTimeoutRef s
  /\ WebSocketStore.status (wsStore (stateOf r)) = Disconnected
  /\ WebSocketStore.error (wsStore (stateOf r)) = None
  /\ wsRef (stateOf r) = None.
Proof. cbv zeta. repeat split. Qed.

(** ** C4: giving up after three retries *)

Ltac break_match :=
  repeat (match goal with
          | |- context [match ?x with _ => _ end] =>
              lazymatch x with
              | context [match _ with _ => _ end] => fail
              | _ => destruct x eqn:?
              end
          end; hsimpl).

(** Only a close increments [reconnectAttempts] and arms the timer, and
    only [auth.success] resets the counter. *)
Lemma step_quiet (cid tok : option string) (e : Event) (s : HookState) :
  quiet e = true ->
  reconnectAttempts (stateOf (step cid tok e s)) = reconnectAttempts s
  /\ scheduled (traceOf (step cid tok e s)) = 0%nat.
Proof.
  intro Hq. destruct e as [| |data| |c| |c u]; simpl in Hq;
    try discriminate.
  - unfold stateOf, traceOf. run_handler. break_match; split; reflexivity.
  - unfold stateOf, traceOf. run_handler. break_match; split; reflexivity.
  - destruct data as [m|]; [|split; reflexivity].
    apply negb_true_iff in Hq.
    unfold stateOf, traceOf. run_handler. rewrite Hq.
    break_match; split; reflexivity.
  - split; reflexivity.
  - unfold stateOf, traceOf. run_handler. break_match; split; reflexivity.
  - unfold stateOf, traceOf. run_handler. break_match; split; reflexivity.
Qed.

Lemma run_quiet (cid tok : option string) (es : list Event) :
  forall s : HookState,
    forallb quiet es = true ->
    reconnectAttempts (stateOf (run cid tok es s)) = reconnectAttempts s
    /\ scheduled (traceOf (run cid tok es s)) = 0%nat.
Proof.
  induction es as [|e es IH]; intros s Hq.
  - split; reflexivity.
  - simpl in Hq. apply andb_true_iff in Hq. destruct Hq as [He Hes].
    destruct (run_cons cid tok e es s) as [Hs Ht].
    destruct (step_quiet cid tok e s He) as [Hn Hz].
    destruct (IH (stateOf (step cid tok e s)) Hes) as [IHn IHz].
    rewrite Hs, Ht, scheduled_app, IHn, IHz, Hn, Hz. split; reflexivity.
Qed.

(** One abnormal close below the limit, followed by quiet events. *)
Lemma run_retry_round (cid tok : option string) (c : Z) (q : list Event)
  (s : HookState) :
  abnormal c ->
  reconnectAttempts s < maxReconnectAttempts ->
  forallb quiet q = true ->
  reconnectAttempts (stateOf (run cid tok (OnClose c :: q) s))
  = reconnectAttempts s + 1
  /\ scheduled (traceOf (run cid tok (OnClose c :: q) s)) = 1%nat.
Proof.
  intros Hab Hlt Hq.
  destruct (run_cons cid tok (OnClose c) q s) as [Hs Ht].
  destruct (run_quiet cid tok q (stateOf (step cid tok (OnClose c) s)) Hq)
    as [Hn Hz].
  rewrite Hs, Ht, scheduled_app, Hn, Hz.
  simpl step. rewrite (onclose_retry s c Hab Hlt). split; reflexivity.
Qed.

(** From the initial state on, the counter stays between 0 and 3. *)
Lemma step_reconnectAttempts_bounds (cid tok : option string) (e : Event)
  (s : HookState) :
  0 <= reconnectAttempts s <= maxReconnectAttempts ->
  0 <= reconnectAttempts (stateOf (step cid tok e s)) <= maxReconnectAttempts.
Proof.
  intro Hb. destruct (quiet e) eqn:Hq.
  - destruct (step_quiet cid tok e s Hq) as [Hn _]. now rewrite Hn.
  - unfold maxReconnectAttempts in *.
    destruct e as [| |[m|]| |c| |c u]; simpl in Hq; try discriminate.
    + apply negb_false_iff in Hq. unfold stateOf. run_handler.
      rewrite Hq. hsimpl. lia.
    + unfold stateOf. run_handler. break_match; hsimpl; try lia.
      match goal with
      | H : _ && (_ <? _) = true |- _ =>
          apply andb_true_iff in H; destruct H as [_ H];
          apply Z.ltb_lt in H; unfold maxReconnectAttempts in H; lia
      end.
Qed.

Lemma run_reconnectAttempts_bounds (cid tok : option string)
  (es : list Event) :
  forall s : HookState,
    0 <= reconnectAttempts s <= maxReconnectAttempts ->
    0 <= reconnectAttempts (stateOf (run cid tok es s)) <= maxReconnectAttempts.
Proof.
  induction es as [|e es IH]; intros s Hb.
  - exact Hb.
  - destruct (run_cons cid tok e es s) as [Hs _]. rewrite Hs.
    apply IH. now apply step_reconnectAttempts_bounds.
Qed.

(** The expired-token scenario: the first authentication is refused and
    the server closes with 4001.  Nothing is scheduled, the counter is
    still 0 and the store ends [disconnected]. *)
Example expired_token_scenario :
  let r := run (Some "conv-1") (Some "expired")
             [Connect; OnOpen;
              OnMessage (Some (WSErrorMessage "Authentication failed"
                                 AUTH_FAILED));
              OnClose 4001] initial in
  scheduled (traceOf r) = 0%nat
  /\ reconnectAttempts (stateOf r) = 0
  /\ wsStore (stateOf r) = WebSocketStore.initial
  /\ sent (traceOf r) = [WSAuthMessage "expired"].
Proof. cbv zeta. repeat split. Qed.

(** One abnormal close at the limit, followed by quiet events. *)
Lemma run_give_up_round (cid tok : option string) (c : Z) (q : list Event)
  (s : HookState) :
  abnormal c ->
  maxReconnectAttempts <= reconnectAttempts s ->
  forallb quiet q = true ->
  reconnectAttempts (stateOf (run cid tok (OnClose c :: q) s))
  = reconnectAttempts s
  /\ scheduled (traceOf (run cid tok (OnClose c :: q) s)) = 0%nat.
Proof.
  intros [_ H4001] Hge Hq.
  destruct (run_cons cid tok (OnClose c) q s) as [Hs Ht].
  destruct (run_quiet cid tok q (stateOf (step cid tok (OnClose c) s)) Hq)
    as [Hn Hz].
  rewrite Hs, Ht, scheduled_app, Hn, Hz.
  simpl step. rewrite (onclose_give_up s c H4001 (or_intror Hge)).
  split; reflexivity.
Qed.

(** A round schedules a reconnect exactly when the counter is below the
    limit, and then increments it. *)
Lemma run_round_scheduled (cid tok : option string) (c : Z) (q : list Event)
  (s : HookState) :
  abnormal c ->
  forallb quiet q = true ->
  scheduled (traceOf (run cid tok (OnClose c :: q) s)) = 1%nat ->
  reconnectAttempts s < maxReconnectAttempts
  /\ reconnectAttempts (stateOf (run cid tok (OnClose c :: q) s))
     = reconnectAttempts s + 1.
Proof.
  intros Hab Hq H1.
  destruct (Z.lt_ge_cases (reconnectAttempts s) maxReconnectAttempts)
    as [Hlt|Hge].
  - split; [exact Hlt|].
    now destruct (run_retry_round cid tok c q s Hab Hlt Hq).
  - destruct (run_give_up_round cid tok c q s Hab Hge Hq) as [_ Hz].
    congruence.
Qed.

(** C4 (as stated, refuted).  The counter is reset by every [auth.success]
    frame.  Let each of three abnormal closes be followed by a successful
    reconnect ([connect], the socket opening, [auth.success]): each close
    schedules one reconnect, and the fourth abnormal close schedules one
    again, with the delay of a first attempt; it neither resets the store
    nor invokes [onDisconnected]. *)
Lemma fourth_close_counterexample :
  let cid := Some "conv-1" in
  let tok := Some "token" in
  let again := [Connect; OnOpen;
                OnMessage (Some (WSAuthSuccessMessage "conv-1"))] in
  let r1 := run cid tok (OnClose 1006 :: again) connectedState in
  let r2 := run cid tok (OnClose 1006 :: again) (stateOf r1) in
  let r3 := run cid tok (OnClose 1006 :: again) (stateOf r2) in
  let r4 := onclose 1006 (stateOf r3) in
  abnormal 1006
  /\ scheduled (traceOf r1) = 1%nat
  /\ scheduled (traceOf r2) = 1%nat
  /\ scheduled (traceOf r3) = 1%nat
  /\ scheduled (traceOf r4) = 1%nat
  /\ traceOf r4
     = [ChatStoreSet (ChatStore.clearStreaming (chatStore (stateOf r3)));
        SetTimeout 2000]
  /\ ~ In (Invoke onDisconnected) (traceOf r4)
  /\ WebSocketStore.status (wsStore (stateOf r4)) <> Disconnected.
Proof.
  vm_compute.
  repeat match goal with |- _ /\ _ => split end;
    try reflexivity; try discriminate.
  intros [H|[H|[]]]; discriminate.
Qed.

(** C4 (amended).  Take three consecutive abnormal closes, each followed by
    any events other than a close or an [auth.success] frame (the timer
    firing [connect], the socket opening, errors, other frames), and
    suppose each of the three scheduled a reconnect.  Then the counter is
    3, and a fourth abnormal close schedules none: it resets the store to
    [disconnected] and invokes [onDisconnected], and arms no timer. *)
Theorem fourth_close_gives_up (cid tok : option string) (s : HookState)
  (c1 c2 c3 c4 : Z) (q1 q2 q3 : list Event) :
  0 <= reconnectAttempts s ->
  abnormal c1 -> abnormal c2 -> abnormal c3 -> abnormal c4 ->
  forallb quiet q1 = true -> forallb quiet q2 = true ->
  forallb quiet q3 = true ->
  let s1 := stateOf (run cid tok (OnClose c1 :: q1) s) in
  let s2 := stateOf (run cid tok (OnClose c2 :: q2) s1) in
  let s3 := stateOf (run cid tok (OnClose c3 :: q3) s2) in
  let r := onclose c4 s3 in
  scheduled (traceOf (run cid tok (OnClose c1 :: q1) s)) = 1%nat ->
  scheduled (traceOf (run cid tok (OnClose c2 :: q2) s1)) = 1%nat ->
  scheduled (traceOf (run cid tok (OnClose c3 :: q3) s2)) = 1%nat ->
  reconnectAttempts s = 0
  /\ reconnectAttempts s3 = 3
  /\ scheduled (traceOf r) = 0%nat
  /\ traceOf r = [ChatStoreSet (ChatStore.clearStreaming (chatStore s3));
                  WebSocketStoreSet WebSocketStore.initial;
                  Invoke onDisconnected]
  /\ WebSocketStore.status (wsStore (stateOf r)) = Disconnected
  /\ reconnectTimeoutRef (stateOf r) = reconnectTimeoutRef s3.
Proof.
  intros H0 Hc1 Hc2 Hc3 Hc4 Hq1 Hq2 Hq3. cbv zeta. intros Hz1 Hz2 Hz3.
  destruct (run_round_scheduled cid tok c1 q1 s Hc1 Hq1 Hz1) as [Hlt1 Hn1].
  set (s1 := stateOf (run cid tok (OnClose c1 :: q1) s)) in *.
  destruct (run_round_scheduled cid tok c2 q2 s1 Hc2 Hq2 Hz2) as [Hlt2 Hn2].
  set (s2 := stateOf (run cid tok (OnClose c2 :: q2) s1)) in *.
  destruct (run_round_scheduled cid tok c3 q3 s2 Hc3 Hq3 Hz3) as [Hlt3 Hn3].
  set (s3 := stateOf (run cid tok (OnClose c3 :: q3) s2)) in *.
  unfold maxReconnectAttempts in *.
  assert (Hs0 : reconnectAttempts s = 0) by lia.
  assert (H3 : reconnectAttempts s3 = 3) by lia.
  assert (Hge : c4 = 1000 \/ maxReconnectAttempts <= reconnectAttempts s3)
    by (right; unfold maxReconnectAttempts; lia).
  destruct Hc4 as [_ H4001].
  rewrite (onclose_give_up s3 c4 H4001 Hge).
  repeat split; assumption.
Qed.

Lemma fourth_close_gives_up_witness :
  let cid := Some "conv-1" in
  let tok := Some "token" in
  let q := [Connect; OnOpen; OnError] in
  let s1 := stateOf (run cid tok (OnClose 1006 :: q) connectedState) in
  let s2 := stateOf (run cid tok (OnClose 1006 :: q) s1) in
  let s3 := stateOf (run cid tok (OnClose 1006 :: q) s2) in
  let r := onclose 1006 s3 in
  reconnectAttempts connectedState = 0
  /\ reconnectAttempts s3 = 3
  /\ scheduled (traceOf r) = 0%nat
  /\ traceOf r = [ChatStoreSet (ChatStore.clearStreaming (chatStore s3));
                  WebSocketStoreSet WebSocketStore.initial;
                  Invoke onDisconnected]
  /\ WebSocketStore.status (wsStore (stateOf r)) = Disconnected
  /\ reconnectTimeoutRef (stateOf r) = reconnectTimeoutRef s3.
Proof.
  apply (fourth_close_gives_up (Some "conv-1") (Some "token") connectedState
           1006 1006 1006 1006
           [Connect; OnOpen; OnError] [Connect; OnOpen; OnError]
           [Connect; OnOpen; OnError]);
    try reflexivity; try (split; discriminate); discriminate.
Defined.

(** ** C5: sending a message *)

Lemma sendMessage_eq (content uuid : string) (s : HookState) :
  sendMessage content uuid s
  = if socketOpen s
    then (true,
          {| wsStore := wsStore s;
             chatStore := ChatStore.startStreaming uuid (chatStore s);
             wsRef := wsRef s;
             reconnectAttempts := reconnectAttempts s;
             reconnectTimeoutRef := reconnectTimeoutRef s |},
          [ChatStoreSet (ChatStore.startStreaming uuid (chatStore s));
           WsSend (WSChatMessage content)])
    else (false, s, []).
Proof.
  unfold socketOpen. run_handler.
  destruct (wsRef s) as [[]|] eqn:Hws; try reflexivity.
  hsimpl. now rewrite Hws.
Qed.

(** C5.  [MessageInput.handleSend] reaches its [onSend] prop (which
    [ChatArea] binds to [sendMessage]) only when the status is [connected]
    and no accumulator is streaming: otherwise it does nothing, whatever
    [onSend] is.  [sendMessage] itself returns [true] with the accumulator
    started and exactly the [chat.message] frame sent when the socket is
    open, and [false] with the state untouched and nothing sent when it is
    not. *)
Theorem sendMessage_dispatch (trim : string -> string)
  (MAX_USER_MESSAGE_LENGTH : nat) (s : HookState)
  (text uuid model now content streamId : string) :
  ((WebSocketStore.status (wsStore s) = Connected
    /\ MessageInput.isStreaming s = false)
   \/ (forall onSend : string -> M bool,
         MessageInput.handleSend trim MAX_USER_MESSAGE_LENGTH onSend
           text uuid model now s
         = (text, s, [])))
  /\ (let r := ChatArea.handleSend streamId content s in
      valueOf r = socketOpen s
      /\ sent (traceOf r)
         = (if valueOf r then [WSChatMessage content] else [])
      /\ traceOf r
         = (if socketOpen s
            then [ChatStoreSet (ChatStore.startStreaming streamId (chatStore s));
                  WsSend (WSChatMessage content)]
            else [])
      /\ accumulator (stateOf r)
         = (if socketOpen s
            then Some {| ChatStore.id := streamId; ChatStore.content := "";
                         ChatStore.isStreaming := true |}
            else accumulator s)
      /\ (if socketOpen s then True else stateOf r = s)).
Proof.
  split.
  - destruct (WebSocketStore.status (wsStore s)) eqn:Hst;
      try (right; intro onSend;
           unfold MessageInput.handleSend, MessageInput.canSend,
             MessageInput.isConnected;
           unfold bind, get, ret; rewrite Hst; reflexivity).
    destruct (MessageInput.isStreaming s) eqn:Hstr.
    + right; intro onSend.
      unfold MessageInput.handleSend, MessageInput.canSend,
        MessageInput.isConnected.
      unfold bind, get, ret. rewrite Hst, Hstr. reflexivity.
    + left. split; reflexivity.
  - cbv zeta. unfold ChatArea.handleSend. rewrite sendMessage_eq.
    destruct (socketOpen s); repeat split; reflexivity.
Qed.

(** ** C6: [chat.error] frames *)

(** C6.  A [chat.error] frame sets the store's error to the frame's
    message and code and its status to [error], the store update being
    the first thing the handler does; it then discards the accumulator
    whole and hands the frame to [onError].  The refs are untouched. *)
Theorem chat_error_visible (s : HookState) (m : WSIncomingMessage) :
  type m = "chat.error" ->
  let r := onmessage (Some m) s in
  let shown := {| WebSocketStore.message := error m;
                  WebSocketStore.code := code m |} in
  WebSocketStore.status (wsStore (stateOf r)) = Error
  /\ WebSocketStore.error (wsStore (stateOf r)) = Some shown
  /\ WebSocketStore.conversationId (wsStore (stateOf r))
     = WebSocketStore.conversationId (wsStore s)
  /\ accumulator (stateOf r) = None
  /\ traceOf r
     = [WebSocketStoreSet
          {| WebSocketStore.status := Error;
             WebSocketStore.error := Some shown;
             WebSocketStore.conversationId :=
               WebSocketStore.conversationId (wsStore s) |};
        ChatStoreSet (ChatStore.clearStreaming (chatStore s));
        Invoke (onError m)]
  /\ wsRef (stateOf r) = wsRef s
  /\ reconnectAttempts (stateOf r) = reconnectAttempts s.
Proof.
  intro Ht. cbv zeta. unfold onmessage. rewrite Ht.
  repeat split.
Qed.

Lemma chat_error_visible_witness :
  let m := WSErrorMessage "model timed out" AI_TIMEOUT in
  let s := stateOf (onmessage (Some (WSStreamMessage "par" false None))
                      streamingState) in
  let r := onmessage (Some m) s in
  let shown := {| WebSocketStore.message := error m;
                  WebSocketStore.code := code m |} in
  WebSocketStore.status (wsStore (stateOf r)) = Error
  /\ WebSocketStore.error (wsStore (stateOf r)) = Some shown
  /\ WebSocketStore.conversationId (wsStore (stateOf r))
     = WebSocketStore.conversationId (wsStore s)
  /\ accumulator (stateOf r) = None
  /\ traceOf r
     = [WebSocketStoreSet
          {| WebSocketStore.status := Error;
             WebSocketStore.error := Some shown;
             WebSocketStore.conversationId :=
               WebSocketStore.conversationId (wsStore s) |};
        ChatStoreSet (ChatStore.clearStreaming (chatStore s));
        Invoke (onError m)]
  /\ wsRef (stateOf r) = wsRef s
  /\ reconnectAttempts (stateOf r) = reconnectAttempts s.
Proof.
  apply (chat_error_visible
           (stateOf (onmessage (Some (WSStreamMessage "par" false None))
                       streamingState))
           (WSErrorMessage "model timed out" AI_TIMEOUT)).
  reflexivity.
Defined.

(** ** C7: [auth.success] frames *)

(** C7.  An [auth.success] frame leaves the store [connected] with no
    error and the frame's conversation id bound, and the counter at 0;
    processing the same frame again yields the same state. *)
Theorem auth_success_idempotent (s : HookState) (m : WSIncomingMessage) :
  type m = "auth.success" ->
  let s1 := stateOf (onmessage (Some m) s) in
  let s2 := stateOf (onmessage (Some m) s1) in
  WebSocketStore.status (wsStore s1) = Connected
  /\ reconnectAttempts s1 = 0
  /\ WebSocketStore.error (wsStore s1) = None
  /\ WebSocketStore.conversationId (wsStore s1) = Some (conversation_id m)
  /\ chatStore s1 = chatStore s
  /\ wsRef s1 = wsRef s
  /\ reconnectTimeoutRef s1 = reconnectTimeoutRef s
  /\ s2 = s1.
Proof.
  intro Ht. cbv zeta. unfold onmessage. rewrite Ht.
  repeat split.
Qed.

Lemma auth_success_idempotent_witness :
  let m := WSAuthSuccessMessage "conv-7" in
  let s := stateOf (onclose 1006 connectedState) in
  let s1 := stateOf (onmessage (Some m) s) in
  let s2 := stateOf (onmessage (Some m) s1) in
  WebSocketStore.status (wsStore s1) = Connected
  /\ reconnectAttempts s1 = 0
  /\ WebSocketStore.error (wsStore s1) = None
  /\ WebSocketStore.conversationId (wsStore s1) = Some (conversation_id m)
  /\ chatStore s1 = chatStore s
  /\ wsRef s1 = wsRef s
  /\ reconnectTimeoutRef s1 = reconnectTimeoutRef s
  /\ s2 = s1.
Proof.
  apply (auth_success_idempotent (stateOf (onclose 1006 connectedState))
           (WSAuthSuccessMessage "conv-7")).
  reflexivity.
Defined.

(** ** C8: [ping] frames *)

(** C8.  A [ping] frame makes the handler send exactly one [pong] frame,
    within the handler, and nothing else: the whole state (both stores and
    the three refs) is what it was. *)
Theorem ping_pong (s : HookState) (m : WSIncomingMessage) :
  type m = "ping" ->
  onmessage (Some m) s = (tt, s, [WsSend WSPongMessage]).
Proof.
  intro Ht. unfold onmessage. rewrite Ht. reflexivity.
Qed.

Lemma ping_pong_witness :
  onmessage (Some WSPingMessage) streamingState
  = (tt, streamingState, [WsSend WSPongMessage]).
Proof.
  apply (ping_pong streamingState WSPingMessage). reflexivity.
Defined.

(** ** C9: malformed and unknown frames *)

(** C9.  Data that does not parse, and a parsed message whose type is none
    of [auth.success], [chat.stream], [chat.error] and [ping], change
    nothing: the state is what it was, no frame is sent, no store is
    updated and no callback is invoked. *)
Theorem unknown_frame_ignored (s : HookState) (m : WSIncomingMessage) :
  type m <> "auth.success" -> type m <> "chat.stream" ->
  type m <> "chat.error" -> type m <> "ping" ->
  onmessage None s = (tt, s, [])
  /\ onmessage (Some m) s = (tt, s, []).
Proof.
  intros Ha Hs He Hp. split; [reflexivity|].
  unfold onmessage.
  apply String.eqb_neq in Ha, Hs, He, Hp.
  rewrite Ha, Hs, He, Hp. reflexivity.
Qed.

Lemma unknown_frame_ignored_witness :
  let m := {| type := "chat.typing"; conversation_id := "conv-1";
              content := "x"; done := true; message_id := Some "m9";
              error := "e"; code := AI_ERROR |} in
  onmessage None streamingState = (tt, streamingState, [])
  /\ onmessage (Some m) streamingState = (tt, streamingState, []).
Proof.
  apply (unknown_frame_ignored streamingState
           {| type := "chat.typing"; conversation_id := "conv-1";
              content := "x"; done := true; message_id := Some "m9";
              error := "e"; code := AI_ERROR |});
    discriminate.
Defined.

(** ** C10: where accumulators come from *)

Ltac chat_unfold :=
  unfold ChatStore.appendStreamContent, ChatStore.finishStreaming,
    ChatStore.clearStreaming, ChatStore.startStreaming,
    ChatStore.setPendingUserMessage, ChatStore.set_streamingMessage.

Lemma step_keeps_null (cid tok : option string) (e : Event) (s : HookState) :
  isSend e = false ->
  accumulator s = None ->
  accumulator (stateOf (step cid tok e s)) = None.
Proof.
  unfold accumulator, stateOf. intros He Hacc.
  destruct e as [| |data| |c| |c u]; simpl in He; try discriminate;
    run_handler; break_match; chat_unfold; hsimpl;
    rewrite ?Hacc; try reflexivity; try assumption; try congruence.
Qed.

Lemma run_keeps_null (cid tok : option string) (es : list Event) :
  forall s : HookState,
    forallb (fun e => negb (isSend e)) es = true ->
    accumulator s = None ->
    accumulator (stateOf (run cid tok es s)) = None.
Proof.
  induction es as [|e es IH]; intros s Hes Hacc.
  - exact Hacc.
  - simpl in Hes. apply andb_true_iff in Hes. destruct Hes as [He Hes].
    apply negb_true_iff in He.
    destruct (run_cons cid tok e es s) as [Hs _]. rewrite Hs.
    apply IH; [exact Hes|].
    now apply step_keeps_null.
Qed.

Lemma deliver_no_send (frames : list WSIncomingMessage) :
  forallb (fun e => negb (isSend e)) (deliver frames) = true.
Proof. induction frames as [|m frames IH]; simpl; [reflexivity | exact IH]. Qed.

Lemma onclose_discards (s : HookState) (c : Z) :
  accumulator (stateOf (onclose c s)) = None.
Proof.
  unfold accumulator, stateOf. run_handler. break_match; reflexivity.
Qed.

(** C10.  With no accumulator in the store, [appendStreamContent] and
    [finishStreaming] leave none, and so does every run of hook events
    that contains no [sendMessage] call, in particular every sequence of
    frames; [startStreaming] puts a fresh accumulator in the store's single
    slot whatever was there.  Hence after a close or a [chat.error] frame
    discarded the accumulator, the frames that follow do not bring one
    back. *)
Theorem accumulator_only_from_send (cid tok : option string) (s : HookState)
  (es : list Event) (st : ChatStore.ChatState) (c i : string) :
  accumulator s = None ->
  ChatStore.streamingMessage st = None ->
  forallb (fun e => negb (isSend e)) es = true ->
  ChatStore.streamingMessage (ChatStore.appendStreamContent c st) = None
  /\ ChatStore.streamingMessage (ChatStore.finishStreaming i st) = None
  /\ (forall st' : ChatStore.ChatState,
        ChatStore.streamingMessage (ChatStore.startStreaming i st')
        = Some {| ChatStore.id := i; ChatStore.content := "";
                  ChatStore.isStreaming := true |})
  /\ accumulator (stateOf (run cid tok es s)) = None
  /\ (forall frames : list WSIncomingMessage,
        accumulator (stateOf (run cid tok (deliver frames) s)) = None)
  /\ (forall (s0 : HookState) (event_code : Z)
             (frames : list WSIncomingMessage),
        accumulator
          (stateOf (run cid tok (OnClose event_code :: deliver frames) s0))
        = None)
  /\ (forall (s0 : HookState) (e : string) (ec : WSErrorCode)
             (frames : list WSIncomingMessage),
        accumulator
          (stateOf (run cid tok
                      (OnMessage (Some (WSErrorMessage e ec)) :: deliver frames)
                      s0))
        = None).
Proof.
  intros Hacc Hst Hes. repeat split.
  - unfold ChatStore.appendStreamContent. simpl. now rewrite Hst.
  - unfold ChatStore.finishStreaming. simpl. now rewrite Hst.
  - now apply run_keeps_null.
  - intro frames. apply run_keeps_null; [apply deliver_no_send | exact Hacc].
  - intros s0 event_code frames.
    destruct (run_cons cid tok (OnClose event_code) (deliver frames) s0)
      as [Hs _].
    rewrite Hs. apply run_keeps_null; [apply deliver_no_send|].
    simpl step. apply onclose_discards.
  - intros s0 e ec frames.
    destruct (run_cons cid tok (OnMessage (Some (WSErrorMessage e ec)))
                (deliver frames) s0) as [Hs _].
    rewrite Hs. apply run_keeps_null; [apply deliver_no_send|].
    reflexivity.
Qed.

Lemma accumulator_only_from_send_witness :
  let cid := Some "conv-1" in
  let tok := Some "token" in
  let s := connectedState in
  let es := [OnMessage (Some (WSStreamMessage "late" false None));
             OnMessage (Some (WSStreamMessage "" true (Some "m1")));
             OnError; OnClose 1006; Connect; OnOpen;
             OnMessage (Some (WSAuthSuccessMessage "conv-1")); Disconnect] in
  let st := ChatStore.initial in
  ChatStore.streamingMessage (ChatStore.appendStreamContent "x" st) = None
  /\ ChatStore.streamingMessage (ChatStore.finishStreaming "m1" st) = None
  /\ (forall st' : ChatStore.ChatState,
        ChatStore.streamingMessage (ChatStore.startStreaming "m1" st')
        = Some {| ChatStore.id := "m1"; ChatStore.content := "";
                  ChatStore.isStreaming := true |})
  /\ accumulator (stateOf (run cid tok es s)) = None
  /\ (forall frames : list WSIncomingMessage,
        accumulator (stateOf (run cid tok (deliver frames) s)) = None)
  /\ (forall (s0 : HookState) (event_code : Z)
             (frames : list WSIncomingMessage),
        accumulator
          (stateOf (run cid tok (OnClose event_code :: deliver frames) s0))
        = None)
  /\ (forall (s0 : HookState) (e : string) (ec : WSErrorCode)
             (frames : list WSIncomingMessage),
        accumulator
          (stateOf (run cid tok
                      (OnMessage (Some (WSErrorMessage e ec)) :: deliver frames)
                      s0))
        = None).
Proof.
  apply (accumulator_only_from_send (Some "conv-1") (Some "token")
           connectedState
           [OnMessage (Some (WSStreamMessage "late" false None));
            OnMessage (Some (WSStreamMessage "" true (Some "m1")));
            OnError; OnClose 1006; Connect; OnOpen;
            OnMessage (Some (WSAuthSuccessMessage "conv-1")); Disconnect]
           ChatStore.initial "x" "m1");
    reflexivity.
Defined.

(* ================================================================== *)
(** * Further properties of the hook *)
(* ================================================================== *)

(** ** [connect] and [ws.onopen] *)

Lemma connect_open (cid tok : option string) (s : HookState) :
  socketOpen s = true -> connect cid tok s = (tt, s, []).
Proof.
  unfold socketOpen. intro H. run_handler.
  destruct cid as [c|]; [|reflexivity].
  destruct tok as [t|]; [|reflexivity].
  destruct (negb (JS.truthy_string c) || negb (JS.truthy_string t));
    [reflexivity|].
  hsimpl. destruct (wsRef s) as [[]|]; try discriminate. reflexivity.
Qed.

(** X1.  [connect] does nothing at all (no store update, no socket) when the
    socket held in [wsRef] is open, or when the conversation id or the
    access token is missing or empty; in particular after [logout] of the
    auth store, whose token is [null]. *)
Theorem connect_noop (cid tok : option string) (s : HookState) :
  socketOpen s = true
  \/ cid = None \/ cid = Some "" \/ tok = None \/ tok = Some "" ->
  connect cid tok s = (tt, s, [])
  /\ (forall st : AuthStore.AuthState,
        connect cid (AuthStore.accessToken (AuthStore.logout st)) s
        = (tt, s, [])).
Proof.
  intro H. split.
  - destruct H as [H|H]; [now apply connect_open|].
    run_handler.
    destruct H as [H|[H|[H|H]]]; subst; try reflexivity.
    + destruct tok; reflexivity.
    + destruct cid; reflexivity.
    + destruct cid as [c|]; [|reflexivity].
      now rewrite orb_true_r.
  - intro st. simpl. unfold connect. destruct cid; reflexivity.
Qed.

Lemma connect_noop_witness :
  connect (Some "conv-1") (Some "token") connectedState
  = (tt, connectedState, [])
  /\ (forall st : AuthStore.AuthState,
        connect (Some "conv-1")
          (AuthStore.accessToken (AuthStore.logout st)) connectedState
        = (tt, connectedState, [])).
Proof.
  apply (connect_noop (Some "conv-1") (Some "token") connectedState).
  left. reflexivity.
Defined.

(** X2.  With a conversation id and a token, both non-empty, and no open socket
    in [wsRef], [connect] followed by the socket opening opens exactly one
    socket, at [WS_BASE_URL/ws/chat/<conversation id>/], and sends exactly
    one frame, the [auth] frame carrying the token; the status ends
    [authenticating].  A recorded error, the bound conversation, the chat
    store, the counter and the timer ref are left as they were. *)
Theorem connect_handshake (c t : string) (s : HookState) :
  c <> "" -> t <> "" -> socketOpen s = false ->
  let r := run (Some c) (Some t) [Connect; OnOpen] s in
  Session.opened (traceOf r) = [WS_BASE_URL ++ "/ws/chat/" ++ c ++ "/"]
  /\ sent (traceOf r) = [WSAuthMessage t]
  /\ WebSocketStore.status (wsStore (stateOf r)) = Authenticating
  /\ wsRef (stateOf r) = Some OPEN
  /\ WebSocketStore.error (wsStore (stateOf r))
     = WebSocketStore.error (wsStore s)
  /\ WebSocketStore.conversationId (wsStore (stateOf r))
     = WebSocketStore.conversationId (wsStore s)
  /\ chatStore (stateOf r) = chatStore s
  /\ reconnectAttempts (stateOf r) = reconnectAttempts s
  /\ reconnectTimeoutRef (stateOf r) = reconnectTimeoutRef s.
Proof.
  intros Hc Ht Hopen. cbv zeta. unfold socketOpen in Hopen.
  destruct c as [|a c]; [congruence|].
  destruct t as [|b t]; [congruence|].
  unfold stateOf, traceOf, run. run_handler.
  destruct (wsRef s) as [[]|] eqn:Hws; try discriminate;
    hsimpl; repeat split.
Qed.

Lemma connect_handshake_witness :
  let s := stateOf (onclose 1006 connectedState) in
  let r := run (Some "conv-1") (Some "token") [Connect; OnOpen] s in
  Session.opened (traceOf r) = [WS_BASE_URL ++ "/ws/chat/" ++ "conv-1" ++ "/"]
  /\ sent (traceOf r) = [WSAuthMessage "token"]
  /\ WebSocketStore.status (wsStore (stateOf r)) = Authenticating
  /\ wsRef (stateOf r) = Some OPEN
  /\ WebSocketStore.error (wsStore (stateOf r))
     = WebSocketStore.error (wsStore s)
  /\ WebSocketStore.conversationId (wsStore (stateOf r))
     = WebSocketStore.conversationId (wsStore s)
  /\ chatStore (stateOf r) = chatStore s
  /\ reconnectAttempts (stateOf r) = reconnectAttempts s
  /\ reconnectTimeoutRef (stateOf r) = reconnectTimeoutRef s.
Proof.
  apply (connect_handshake "conv-1" "token"
           (stateOf (onclose 1006 connectedState)));
    [discriminate | discriminate | reflexivity].
Defined.

(** ** [disconnect] *)

(** X3.  [disconnect] cancels the pending timer if there is one, closes the
    socket with code 1000 if there is one, and resets the store: afterwards
    there is no socket, no timer, and the store is in its initial state.
    It leaves the chat store (the accumulator included) and the reconnect
    counter alone.  Calling it again changes nothing: the second call only
    resets the already reset store. *)
Theorem disconnect_idempotent (s : HookState) :
  let r := disconnect s in
  wsStore (stateOf r) = WebSocketStore.initial
  /\ wsRef (stateOf r) = None
  /\ reconnectTimeoutRef (stateOf r) = None
  /\ chatStore (stateOf r) = chatStore s
  /\ reconnectAttempts (stateOf r) = reconnectAttempts s
  /\ traceOf r
     = (match reconnectTimeoutRef s with
        | Some t => [ClearTimeout t]
        | None => []
        end
        ++ match wsRef s with
           | Some _ => [WsClose 1000]
           | None => []
           end
        ++ [WebSocketStoreSet WebSocketStore.initial])%list
  /\ disconnect (stateOf r)
     = (tt, stateOf r, [WebSocketStoreSet WebSocketStore.initial]).
Proof.
  destruct s as [ws ch r n t].
  cbv zeta. unfold stateOf, traceOf. run_handler.
  destruct t; destruct r; hsimpl; repeat split.
Qed.

(** ** Invariants of the connection state machine *)

Lemma step_errorRecorded (cid tok : option string) (e : Event) (s : HookState) :
  Session.errorRecorded s ->
  Session.errorRecorded (stateOf (step cid tok e s)).
Proof.
  unfold Session.errorRecorded, stateOf. intro H.
  destruct e as [| |data| |c| |c u]; run_handler; break_match;
    try exact H; try (intro; discriminate); try (intros _; discriminate).
Qed.

(** X4.  Whenever the status is [error] an error object is recorded with it:
    this holds initially and every event keeps it.  (No action sets the
    status to [error] except [setError] with an error object, and the
    error is cleared only together with a change of status.) *)
Theorem error_status_has_error (cid tok : option string) (es : list Event)
  (s : HookState) :
  Session.errorRecorded s ->
  Session.errorRecorded (stateOf (run cid tok es s))
  /\ Session.errorRecorded (stateOf (run cid tok es initial)).
Proof.
  assert (Hrun : forall es' s', Session.errorRecorded s' ->
                   Session.errorRecorded (stateOf (run cid tok es' s'))).
  { induction es' as [|e es' IH]; intros s' H; [exact H|].
    destruct (run_cons cid tok e es' s') as [Hs _]. rewrite Hs.
    apply IH. now apply step_errorRecorded. }
  intro H. split; [now apply Hrun|].
  apply Hrun. intro Hst. discriminate.
Qed.

Lemma error_status_has_error_witness :
  let es := [Connect; OnOpen; OnError; OnClose 1006; Connect] in
  Session.errorRecorded
    (stateOf (run (Some "conv-1") (Some "token") es connectedState))
  /\ Session.errorRecorded
       (stateOf (run (Some "conv-1") (Some "token") es initial)).
Proof.
  apply (error_status_has_error (Some "conv-1") (Some "token")
           [Connect; OnOpen; OnError; OnClose 1006; Connect] connectedState).
  intro H; discriminate.
Defined.

Lemma step_not_connected (cid tok : option string) (e : Event) (s : HookState) :
  Session.isAuthSuccess e = false ->
  WebSocketStore.status (wsStore s) <> Connected ->
  WebSocketStore.status (wsStore (stateOf (step cid tok e s))) <> Connected.
Proof.
  unfold stateOf. intros He H.
  destruct e as [| |[m|]| |c| |c u]; simpl in He; run_handler;
    try rewrite He; break_match;
    try exact H; try discriminate.
Qed.

(** X5.  The status becomes [connected] through an [auth.success] frame only:
    from a state that is not [connected], a run of events without such a
    frame (connects, opens, other frames, errors, closes, sends) never
    ends [connected]. *)
Theorem connected_only_by_auth_success (cid tok : option string)
  (es : list Event) (s : HookState) :
  forallb (fun e => negb (Session.isAuthSuccess e)) es = true ->
  WebSocketStore.status (wsStore s) <> Connected ->
  WebSocketStore.status (wsStore (stateOf (run cid tok es s))) <> Connected.
Proof.
  revert s. induction es as [|e es IH]; intros s Hes H; [exact H|].
  simpl in Hes. apply andb_true_iff in Hes. destruct Hes as [He Hes].
  apply negb_true_iff in He.
  destruct (run_cons cid tok e es s) as [Hs _]. rewrite Hs.
  apply IH; [exact Hes|]. now apply step_not_connected.
Qed.

Lemma connected_only_by_auth_success_witness :
  WebSocketStore.status
    (wsStore (stateOf (run (Some "conv-1") (Some "token")
                         [Connect; OnOpen;
                          OnMessage (Some (WSStreamMessage "x" false None));
                          OnMessage (Some WSPingMessage);
                          SendMessage "hi" "c0"]
                         initial)))
  <> Connected.
Proof.
  apply (connected_only_by_auth_success (Some "conv-1") (Some "token")
           [Connect; OnOpen;
            OnMessage (Some (WSStreamMessage "x" false None));
            OnMessage (Some WSPingMessage);
            SendMessage "hi" "c0"] initial).
  - reflexivity.
  - discriminate.
Defined.

(** ** The reconnect counter and the timers *)

(** The shapes a close can take. *)
Lemma onclose_cases (s : HookState) (c : Z) :
  (c = 4001
   /\ reconnectAttempts (stateOf (onclose c s)) = reconnectAttempts s
   /\ Session.delays (traceOf (onclose c s)) = [])
  \/ (abnormal c /\ reconnectAttempts s < maxReconnectAttempts
      /\ reconnectAttempts (stateOf (onclose c s)) = reconnectAttempts s + 1
      /\ Session.delays (traceOf (onclose c s))
         = [Z.min (1000 * 2 ^ (reconnectAttempts s + 1)) 10000])
  \/ (c <> 4001
      /\ (c = 1000 \/ maxReconnectAttempts <= reconnectAttempts s)
      /\ reconnectAttempts (stateOf (onclose c s)) = reconnectAttempts s
      /\ Session.delays (traceOf (onclose c s)) = []).
Proof.
  destruct (Z.eq_dec c 4001) as [H4001|H4001].
  - left. subst. repeat split.
  - destruct (Z.eq_dec c 1000) as [H1000|H1000].
    + right; right.
      rewrite (onclose_give_up s c H4001 (or_introl H1000)).
      repeat split; auto.
    + destruct (Z.lt_ge_cases (reconnectAttempts s) maxReconnectAttempts)
        as [Hlt|Hge].
      * right; left.
        rewrite (onclose_retry s c (conj H1000 H4001) Hlt).
        repeat split; auto.
      * right; right.
        rewrite (onclose_give_up s c H4001 (or_intror Hge)).
        repeat split; auto.
Qed.

Lemma delays_app (t1 t2 : list Effect) :
  Session.delays (t1 ++ t2) = (Session.delays t1 ++ Session.delays t2)%list.
Proof.
  induction t1 as [|e t1 IH]; simpl; [reflexivity|].
  destruct e; simpl; now rewrite IH.
Qed.

Lemma scheduled_delays (t : list Effect) :
  scheduled t = length (Session.delays t).
Proof.
  induction t as [|e t IH]; simpl; [reflexivity|].
  destruct e; simpl; now rewrite IH.
Qed.

Lemma step_quiet_delays (cid tok : option string) (e : Event) (s : HookState) :
  quiet e = true ->
  Session.delays (traceOf (step cid tok e s)) = [].
Proof.
  intro Hq. destruct (step_quiet cid tok e s Hq) as [_ Hz].
  rewrite scheduled_delays in Hz.
  destruct (Session.delays (traceOf (step cid tok e s)));
    [reflexivity | discriminate].
Qed.

(** What one event does to the counter and which timers it arms. *)
Lemma step_counter (cid tok : option string) (e : Event) (s : HookState) :
  0 <= reconnectAttempts s <= maxReconnectAttempts ->
  0 <= reconnectAttempts (stateOf (step cid tok e s)) <= maxReconnectAttempts
  /\ Forall (fun d => d = 2000 \/ d = 4000 \/ d = 8000)
       (Session.delays (traceOf (step cid tok e s)))
  /\ (Session.isAuthSuccess e = false ->
      reconnectAttempts (stateOf (step cid tok e s))
      = reconnectAttempts s
        + Z.of_nat (scheduled (traceOf (step cid tok e s)))).
Proof.
  intro Hb. split; [now apply step_reconnectAttempts_bounds|].
  destruct (quiet e) eqn:Hq.
  - destruct (step_quiet cid tok e s Hq) as [Hn Hz].
    rewrite (step_quiet_delays cid tok e s Hq), Hn, Hz.
    split; [constructor | intros _; simpl; lia].
  - destruct e as [| |[m|]| |c| |c u]; simpl in Hq; try discriminate.
    + apply negb_false_iff in Hq. split.
      * unfold traceOf. run_handler. rewrite Hq. hsimpl. constructor.
      * simpl. rewrite Hq. discriminate.
    + simpl step. unfold maxReconnectAttempts in *.
      destruct (onclose_cases s c)
        as [[_ [Hn Hd]]|[[_ [Hlt [Hn Hd]]]|[_ [_ [Hn Hd]]]]];
        rewrite scheduled_delays, Hd, Hn; simpl length.
      * split; [constructor | intros _; simpl; lia].
      * split; [|intros _; simpl; lia].
        constructor; [|constructor].
        unfold maxReconnectAttempts in Hlt.
        assert (Hc : reconnectAttempts s = 0 \/ reconnectAttempts s = 1
                     \/ reconnectAttempts s = 2) by lia.
        destruct Hc as [Hc|[Hc|Hc]]; rewrite Hc; simpl; auto.
      * split; [constructor | intros _; simpl; lia].
Qed.

(** X6.  Without an [auth.success] frame in between, the counter counts the
    reconnects scheduled: after any run of events that contains no such
    frame, [reconnectAttempts] has grown by exactly the number of timers
    armed, so at most [3 - reconnectAttempts] reconnects are scheduled,
    whatever the closes, errors and other events are. *)
Theorem retries_bounded (cid tok : option string) (es : list Event)
  (s : HookState) :
  0 <= reconnectAttempts s <= maxReconnectAttempts ->
  forallb (fun e => negb (Session.isAuthSuccess e)) es = true ->
  reconnectAttempts (stateOf (run cid tok es s))
  = reconnectAttempts s + Z.of_nat (scheduled (traceOf (run cid tok es s)))
  /\ Z.of_nat (scheduled (traceOf (run cid tok es s)))
     <= maxReconnectAttempts - reconnectAttempts s.
Proof.
  intros Hb Hes.
  assert (Heq : reconnectAttempts (stateOf (run cid tok es s))
                = reconnectAttempts s
                  + Z.of_nat (scheduled (traceOf (run cid tok es s)))).
  { revert s Hb Hes. induction es as [|e es IH]; intros s Hb Hes.
    - unfold stateOf, traceOf; simpl. lia.
    - simpl in Hes. apply andb_true_iff in Hes. destruct Hes as [He Hes].
      apply negb_true_iff in He.
      destruct (run_cons cid tok e es s) as [Hs Ht].
      destruct (step_counter cid tok e s Hb) as [Hb' [_ Hn]].
      rewrite Hs, Ht, scheduled_app, (IH _ Hb' Hes), (Hn He).
      rewrite Nat2Z.inj_add. lia. }
  split; [exact Heq|].
  pose proof (run_reconnectAttempts_bounds cid tok es s Hb) as Hfin.
  unfold maxReconnectAttempts in *. lia.
Qed.

Lemma retries_bounded_witness :
  let es := [OnClose 1006; Connect; OnClose 1006; Connect; OnOpen;
             OnClose 1011; Connect; OnClose 1006; OnClose 1006] in
  let r := run (Some "conv-1") (Some "token") es connectedState in
  reconnectAttempts (stateOf r)
  = reconnectAttempts connectedState + Z.of_nat (scheduled (traceOf r))
  /\ Z.of_nat (scheduled (traceOf r))
     <= maxReconnectAttempts - reconnectAttempts connectedState.
Proof.
  apply (retries_bounded (Some "conv-1") (Some "token")
           [OnClose 1006; Connect; OnClose 1006; Connect; OnOpen;
            OnClose 1011; Connect; OnClose 1006; OnClose 1006]
           connectedState).
  - unfold maxReconnectAttempts; simpl; lia.
  - reflexivity.
Defined.

(** X7.  In every run from a state whose counter is between 0 and 3, the
    counter stays between 0 and 3 and every reconnect timer is armed with
    2000, 4000 or 8000 ms: the 10000 ms cap of the delay formula is never
    reached. *)
Theorem backoff_delays_global (cid tok : option string) (es : list Event)
  (s : HookState) :
  0 <= reconnectAttempts s <= maxReconnectAttempts ->
  0 <= reconnectAttempts (stateOf (run cid tok es s)) <= maxReconnectAttempts
  /\ Forall (fun d => d = 2000 \/ d = 4000 \/ d = 8000)
       (Session.delays (traceOf (run cid tok es s))).
Proof.
  revert s. induction es as [|e es IH]; intros s Hb.
  - split; [exact Hb | constructor].
  - destruct (run_cons cid tok e es s) as [Hs Ht].
    destruct (step_counter cid tok e s Hb) as [Hb' [Hd _]].
    destruct (IH _ Hb') as [IHb IHd].
    rewrite Hs, Ht, delays_app. split; [exact IHb|].
    apply Forall_app. split; assumption.
Qed.

Lemma backoff_delays_global_witness :
  let es := [OnClose 1006; Connect; OnClose 1006;
             OnMessage (Some (WSAuthSuccessMessage "conv-1"));
             OnClose 1006; OnClose 1006; OnClose 1006; OnClose 1006] in
  let r := run (Some "conv-1") (Some "token") es initial in
  0 <= reconnectAttempts (stateOf r) <= maxReconnectAttempts
  /\ Forall (fun d => d = 2000 \/ d = 4000 \/ d = 8000)
       (Session.delays (traceOf r)).
Proof.
  apply (backoff_delays_global (Some "conv-1") (Some "token")
           [OnClose 1006; Connect; OnClose 1006;
            OnMessage (Some (WSAuthSuccessMessage "conv-1"));
            OnClose 1006; OnClose 1006; OnClose 1006; OnClose 1006]
           initial).
  unfold maxReconnectAttempts; simpl; lia.
Defined.

(** ** Closes, and what leaves the socket *)

(** X8.  Every close, whatever its code and the state, discards the
    accumulator whole (partial content included), forgets the socket,
    sends no frame, opens no socket by itself and arms at most one timer.
    A close with the normal code 1000 arms none whatever the counter is,
    leaves the counter as it is (it is not reset to 0), resets the store
    and invokes [onDisconnected]. *)
Theorem close_discards (s : HookState) (c : Z) :
  accumulator (stateOf (onclose c s)) = None
  /\ wsRef (stateOf (onclose c s)) = None
  /\ sent (traceOf (onclose c s)) = []
  /\ Session.opened (traceOf (onclose c s)) = []
  /\ (scheduled (traceOf (onclose c s)) <= 1)%nat
  /\ ChatStore.pendingUserMessage (chatStore (stateOf (onclose c s)))
     = ChatStore.pendingUserMessage (chatStore s)
  /\ scheduled (traceOf (onclose 1000 s)) = 0%nat
  /\ reconnectAttempts (stateOf (onclose 1000 s)) = reconnectAttempts s
  /\ wsStore (stateOf (onclose 1000 s)) = WebSocketStore.initial
  /\ Session.invoked (traceOf (onclose 1000 s)) = [onDisconnected].
Proof.
  assert (H1000 : onclose 1000 s
                  = (tt,
                     {| wsStore := WebSocketStore.initial;
                        chatStore := ChatStore.clearStreaming (chatStore s);
                        wsRef := None;
                        reconnectAttempts := reconnectAttempts s;
                        reconnectTimeoutRef := reconnectTimeoutRef s |},
                     [ChatStoreSet (ChatStore.clearStreaming (chatStore s));
                      WebSocketStoreSet WebSocketStore.initial;
                      Invoke onDisconnected])).
  { apply onclose_give_up; [discriminate | now left]. }
  rewrite H1000.
  split; [apply onclose_discards|].
  unfold stateOf, traceOf. run_handler.
  break_match; repeat split; auto.
Qed.

Lemma step_stays_closed (cid tok : option string) (e : Event) (s : HookState) :
  Session.isOnOpen e = false ->
  socketOpen s = false ->
  socketOpen (stateOf (step cid tok e s)) = false.
Proof.
  unfold socketOpen, stateOf. intros He H.
  destruct e as [| |data| |c| |c u]; simpl in He; try discriminate;
    run_handler; break_match; try reflexivity; try assumption;
    try discriminate; try congruence.
Qed.

(** X9.  While no socket has opened, nothing can be sent: from a state whose
    socket is not open (none, or one that is still connecting or closing;
    in particular the state after any close), after any run of events that
    contains no [onopen], [sendMessage] returns [false], sends nothing and
    starts no accumulator. *)
Theorem no_send_until_open (cid tok : option string) (es : list Event)
  (s : HookState) (content uuid : string) :
  socketOpen s = false ->
  forallb (fun e => negb (Session.isOnOpen e)) es = true ->
  sendMessage content uuid (stateOf (run cid tok es s))
  = (false, stateOf (run cid tok es s), []).
Proof.
  intros H Hes. rewrite sendMessage_eq.
  assert (Hc : socketOpen (stateOf (run cid tok es s)) = false).
  { revert s H Hes. induction es as [|e es IH]; intros s H Hes; [exact H|].
    simpl in Hes. apply andb_true_iff in Hes. destruct Hes as [He Hes].
    apply negb_true_iff in He.
    destruct (run_cons cid tok e es s) as [Hs _]. rewrite Hs.
    apply IH; [|exact Hes]. now apply step_stays_closed. }
  now rewrite Hc.
Qed.

Lemma no_send_until_open_witness :
  let es := [Connect; OnError; SendMessage "early" "c1";
             OnMessage (Some (WSAuthSuccessMessage "conv-1"))] in
  let s := stateOf (onclose 1006 streamingState) in
  sendMessage "hi" "c0"
    (stateOf (run (Some "conv-1") (Some "token") es s))
  = (false, stateOf (run (Some "conv-1") (Some "token") es s), []).
Proof.
  apply (no_send_until_open (Some "conv-1") (Some "token")
           [Connect; OnError; SendMessage "early" "c1";
            OnMessage (Some (WSAuthSuccessMessage "conv-1"))]
           (stateOf (onclose 1006 streamingState)) "hi" "c0");
    reflexivity.
Defined.

(** X10.  The frames one event hands to the socket: the [auth] frame with the
    token when the socket opens, a [pong] for a [ping] frame, the
    [chat.message] for a [sendMessage] call on an open socket, and nothing
    in every other case.  So an event sends at most one frame, and
    [connect], [disconnect], errors, closes and every frame other than
    [ping] send none. *)
Theorem frames_sent (cid tok : option string) (e : Event) (s : HookState) :
  sent (traceOf (step cid tok e s))
  = match e with
    | OnOpen =>
        match tok with
        | Some token => [WSAuthMessage token]
        | None => []
        end
    | OnMessage (Some m) =>
        if (type m =? "ping")%string then [WSPongMessage] else []
    | SendMessage content _ =>
        if socketOpen s then [WSChatMessage content] else []
    | _ => []
    end.
Proof.
  unfold socketOpen, traceOf.
  destruct e as [| |[m|]| |c| |c u]; run_handler; break_match;
    try reflexivity; try discriminate.
  all: repeat match goal with
              | H : (type ?m =? _)%string = true |- _ =>
                  apply String.eqb_eq in H
              end; try congruence.
Qed.

(* ================================================================== *)
(** * Further properties of the chat store *)
(* ================================================================== *)

(** X11.  Appending composes: appending [a] and then [b] is appending [a ++ b],
    and appending the empty string changes nothing.  Appending never
    touches the accumulator's id or flag, the pending user message or the
    current conversation. *)
Theorem append_composes (st : ChatStore.ChatState) (a b : string) :
  ChatStore.appendStreamContent b (ChatStore.appendStreamContent a st)
  = ChatStore.appendStreamContent (a ++ b) st
  /\ ChatStore.appendStreamContent "" st = st
  /\ option_map ChatStore.id
       (ChatStore.streamingMessage (ChatStore.appendStreamContent a st))
     = option_map ChatStore.id (ChatStore.streamingMessage st)
  /\ option_map ChatStore.isStreaming
       (ChatStore.streamingMessage (ChatStore.appendStreamContent a st))
     = option_map ChatStore.isStreaming (ChatStore.streamingMessage st)
  /\ ChatStore.pendingUserMessage (ChatStore.appendStreamContent a st)
     = ChatStore.pendingUserMessage st
  /\ ChatStore.currentConversationId (ChatStore.appendStreamContent a st)
     = ChatStore.currentConversationId st.
Proof.
  destruct st as [cc [[i c f]|] p];
    unfold ChatStore.appendStreamContent, ChatStore.set_streamingMessage;
    simpl; rewrite ?append_assoc, ?append_empty_r; repeat split.
Qed.

(** X12.  Finishing commutes with appending (so the order in which one frame's
    [content] and [done] are applied does not matter), finishing twice
    keeps the last id, and [startStreaming] and [clearStreaming] overwrite
    whatever the three accumulator actions did before them. *)
Theorem finish_commutes (st : ChatStore.ChatState) (a i j : string) :
  ChatStore.finishStreaming i (ChatStore.appendStreamContent a st)
  = ChatStore.appendStreamContent a (ChatStore.finishStreaming i st)
  /\ ChatStore.finishStreaming j (ChatStore.finishStreaming i st)
     = ChatStore.finishStreaming j st
  /\ ChatStore.startStreaming j (ChatStore.appendStreamContent a st)
     = ChatStore.startStreaming j st
  /\ ChatStore.startStreaming j (ChatStore.finishStreaming i st)
     = ChatStore.startStreaming j st
  /\ ChatStore.startStreaming j (ChatStore.startStreaming i st)
     = ChatStore.startStreaming j st
  /\ ChatStore.clearStreaming (ChatStore.appendStreamContent a st)
     = ChatStore.clearStreaming st
  /\ ChatStore.clearStreaming (ChatStore.finishStreaming i st)
     = ChatStore.clearStreaming st
  /\ ChatStore.clearStreaming (ChatStore.startStreaming i st)
     = ChatStore.clearStreaming st.
Proof.
  destruct st as [cc [[i0 c f]|] p];
    unfold ChatStore.appendStreamContent, ChatStore.finishStreaming,
      ChatStore.startStreaming, ChatStore.clearStreaming,
      ChatStore.set_streamingMessage;
    simpl; repeat split.
Qed.

(* ================================================================== *)
(** * Further properties of [MessageInput.handleSend] *)
(* ================================================================== *)

Section HandleSend.

Variable trim : string -> string.
Variable MAX_USER_MESSAGE_LENGTH : nat.

(** [handleSend] as [ChatArea] mounts it: [onSend] is [sendMessage]. *)
Let send (streamId text uuid model now : string) : M string :=
  MessageInput.handleSend trim MAX_USER_MESSAGE_LENGTH
    (ChatArea.handleSend streamId) text uuid model now.

(** The state and the pending message after a successful send. *)
Let pendingOf (text uuid model now : string) : Message :=
  {| Types.id := uuid; role := User; msg_content := trim text;
     prompt_tokens := None; completion_tokens := None;
     model_used := model; created_at := now |}.

(** [handleSend] in one equation. *)
Lemma send_eq (streamId text uuid model now : string) (s : HookState) :
  send streamId text uuid model now s
  = if MessageInput.canSend trim s text
       && negb (MAX_USER_MESSAGE_LENGTH <? String.length (trim text))%nat
    then
      let pending :=
        ChatStore.setPendingUserMessage
          (Some (pendingOf text uuid model now)) (chatStore s) in
      if socketOpen s
      then ("",
            {| wsStore := wsStore s;
               chatStore := ChatStore.startStreaming streamId pending;
               wsRef := wsRef s;
               reconnectAttempts := reconnectAttempts s;
               reconnectTimeoutRef := reconnectTimeoutRef s |},
            [ChatStoreSet pending;
             ChatStoreSet (ChatStore.startStreaming streamId pending);
             WsSend (WSChatMessage (trim text))])
      else (text,
            {| wsStore := wsStore s;
               chatStore := ChatStore.setPendingUserMessage None pending;
               wsRef := wsRef s;
               reconnectAttempts := reconnectAttempts s;
               reconnectTimeoutRef := reconnectTimeoutRef s |},
            [ChatStoreSet pending;
             ChatStoreSet (ChatStore.setPendingUserMessage None pending)])
    else (text, s, []).
Proof.
  unfold send, pendingOf, MessageInput.handleSend, ChatArea.handleSend,
    socketOpen.
  unfold_handler.
  destruct (MessageInput.canSend trim s text); [|reflexivity].
  destruct (MAX_USER_MESSAGE_LENGTH <? String.length (trim text))%nat;
    [reflexivity|].
  destruct s as [ws ch r n t].
  destruct r as [[]|]; reflexivity.
Qed.

Lemma canSend_true (s : HookState) (text : string) :
  MessageInput.canSend trim s text = true ->
  WebSocketStore.status (wsStore s) = Connected
  /\ MessageInput.isStreaming s = false
  /\ (0 < String.length (trim text))%nat.
Proof.
  unfold MessageInput.canSend, MessageInput.isConnected. intro H.
  apply andb_true_iff in H. destruct H as [H Hlen].
  apply andb_true_iff in H. destruct H as [Hconn Hstr].
  apply negb_true_iff in Hstr. apply Nat.ltb_lt in Hlen.
  repeat split; try assumption.
  destruct (WebSocketStore.status (wsStore s)); try discriminate; reflexivity.
Qed.

(** X13.  Whatever the state and the text, [handleSend] hands at most one frame
    to the socket, and that frame is the [chat.message] carrying the
    trimmed text, which is then neither empty nor longer than
    [MAX_USER_MESSAGE_LENGTH]; and a frame is sent only when the status is
    [connected], nothing is streaming and the socket is open. *)
Theorem handleSend_sends_valid (streamId text uuid model now : string)
  (s : HookState) :
  let out := sent (traceOf (send streamId text uuid model now s)) in
  out = []
  \/ (out = [WSChatMessage (trim text)]
      /\ (0 < String.length (trim text) <= MAX_USER_MESSAGE_LENGTH)%nat
      /\ WebSocketStore.status (wsStore s) = Connected
      /\ MessageInput.isStreaming s = false
      /\ socketOpen s = true).
Proof.
  cbv zeta. rewrite send_eq.
  destruct (MessageInput.canSend trim s text) eqn:Hcan; [|now left].
  destruct (MAX_USER_MESSAGE_LENGTH <? String.length (trim text))%nat eqn:Hmax;
    [now left|].
  apply Nat.ltb_ge in Hmax.
  destruct (canSend_true s text Hcan) as [Hconn [Hstr Hlen]].
  destruct (socketOpen s); [right | now left].
  repeat split; auto.
Qed.

(** X14.  When the guard passes but the socket is not open (as in the backoff
    window after an abnormal close, during which the status is still
    [connected]), [handleSend] undoes its optimistic update: nothing is
    sent, no accumulator is started, the pending user message ends [null]
    and the text stays in the textarea. *)
Theorem handleSend_undo (streamId text uuid model now : string)
  (s : HookState) :
  MessageInput.canSend trim s text = true ->
  (String.length (trim text) <= MAX_USER_MESSAGE_LENGTH)%nat ->
  socketOpen s = false ->
  let r := send streamId text uuid model now s in
  valueOf r = text
  /\ sent (traceOf r) = []
  /\ accumulator (stateOf r) = accumulator s
  /\ ChatStore.pendingUserMessage (chatStore (stateOf r)) = None
  /\ wsStore (stateOf r) = wsStore s
  /\ wsRef (stateOf r) = wsRef s.
Proof.
  intros Hcan Hmax Hopen. cbv zeta.
  apply Nat.ltb_ge in Hmax.
  rewrite send_eq, Hcan, Hmax, Hopen. repeat split.
Qed.

(** X15.  When the guard passes and the socket is open, [handleSend] sends the
    trimmed text, records the pending user message (role [user], the
    trimmed text, the drawn id), starts a fresh accumulator and empties the
    textarea.  The input is then blocked: a second [handleSend], whatever
    its text, does nothing until the accumulator stops streaming. *)
Theorem handleSend_single_flight
  (streamId text uuid model now : string)
  (streamId2 text2 uuid2 model2 now2 : string) (s : HookState) :
  MessageInput.canSend trim s text = true ->
  (String.length (trim text) <= MAX_USER_MESSAGE_LENGTH)%nat ->
  socketOpen s = true ->
  let r := send streamId text uuid model now s in
  valueOf r = ""
  /\ sent (traceOf r) = [WSChatMessage (trim text)]
  /\ accumulator (stateOf r)
     = Some {| ChatStore.id := streamId; ChatStore.content := "";
               ChatStore.isStreaming := true |}
  /\ ChatStore.pendingUserMessage (chatStore (stateOf r))
     = Some {| Types.id := uuid; role := User;
               msg_content := trim text;
               prompt_tokens := None; completion_tokens := None;
               model_used := model; created_at := now |}
  /\ send streamId2 text2 uuid2 model2 now2 (stateOf r)
     = (text2, stateOf r, []).
Proof.
  intros Hcan Hmax Hopen. cbv zeta.
  apply Nat.ltb_ge in Hmax.
  rewrite (send_eq streamId text uuid model now s), Hcan, Hmax, Hopen.
  repeat split.
  rewrite send_eq.
  unfold MessageInput.canSend, MessageInput.isStreaming. simpl.
  now rewrite andb_false_r.
Qed.

Lemma onmessage_stream_wsStore (s : HookState) (m : WSIncomingMessage) :
  isStream m ->
  wsStore (stateOf (onmessage (Some m) s)) = wsStore s.
Proof.
  unfold isStream, stateOf. intro Hm.
  run_handler. rewrite Hm.
  break_match; try reflexivity; discriminate.
Qed.

(** X16.  How a [chat.stream] frame moves the input guard: after the frame,
    [canSend] holds exactly when the status is [connected], the text is
    not blank, and either the frame finished the accumulator ([done] with
    a non-empty [message_id]) or the accumulator was not streaming before.
    So the terminal frame re-enables the input, and a [done] frame without
    a [message_id] leaves it blocked. *)
Theorem stream_frame_and_guard (s : HookState) (m : WSIncomingMessage)
  (sm : ChatStore.StreamingMessage) (text : string) :
  isStream m ->
  accumulator s = Some sm ->
  MessageInput.canSend trim (stateOf (onmessage (Some m) s)) text
  = MessageInput.isConnected s
    && match terminalId m with
       | Some _ => true
       | None => negb (ChatStore.isStreaming sm)
       end
    && (0 <? String.length (trim text))%nat.
Proof.
  intros Hm Hacc.
  pose proof (onmessage_stream s m sm Hm Hacc) as Hstep.
  unfold MessageInput.canSend, MessageInput.isStreaming.
  unfold accumulator in Hstep. rewrite Hstep. simpl ChatStore.isStreaming.
  unfold MessageInput.isConnected.
  rewrite (onmessage_stream_wsStore s m Hm).
  destruct (terminalId m); reflexivity.
Qed.

End HandleSend.

Lemma handleSend_undo_witness :
  let trim := fun x : string => x in
  let s := stateOf (onclose 1006 connectedState) in
  let r := MessageInput.handleSend trim 4000 (ChatArea.handleSend "c0")
             "hello" "u1" "gpt-4o" "2026-01-01T00:00:00.000Z" s in
  valueOf r = "hello"
  /\ sent (traceOf r) = []
  /\ accumulator (stateOf r) = accumulator s
  /\ ChatStore.pendingUserMessage (chatStore (stateOf r)) = None
  /\ wsStore (stateOf r) = wsStore s
  /\ wsRef (stateOf r) = wsRef s.
Proof.
  apply (handleSend_undo (fun x : string => x) 4000 "c0" "hello" "u1"
           "gpt-4o" "2026-01-01T00:00:00.000Z"
           (stateOf (onclose 1006 connectedState)));
    [reflexivity | simpl; lia | reflexivity].
Defined.

Lemma handleSend_single_flight_witness :
  let trim := fun x : string => x in
  let send := fun sid text uuid =>
    MessageInput.handleSend trim 4000 (ChatArea.handleSend sid)
      text uuid "gpt-4o" "2026-01-01T00:00:00.000Z" in
  let r := send "c0" "hello" "u1" connectedState in
  valueOf r = ""
  /\ sent (traceOf r) = [WSChatMessage "hello"]
  /\ accumulator (stateOf r)
     = Some {| ChatStore.id := "c0"; ChatStore.content := "";
               ChatStore.isStreaming := true |}
  /\ ChatStore.pendingUserMessage (chatStore (stateOf r))
     = Some {| Types.id := "u1"; role := User;
               msg_content := "hello";
               prompt_tokens := None; completion_tokens := None;
               model_used := "gpt-4o";
               created_at := "2026-01-01T00:00:00.000Z" |}
  /\ send "c1" "again" "u2" (stateOf r) = ("again", stateOf r, []).
Proof.
  apply (handleSend_single_flight (fun x : string => x) 4000
           "c0" "hello" "u1" "gpt-4o" "2026-01-01T00:00:00.000Z"
           "c1" "again" "u2" "gpt-4o" "2026-01-01T00:00:00.000Z"
           connectedState);
    [reflexivity | simpl; lia | reflexivity].
Defined.

Lemma stream_frame_and_guard_witness :
  let trim := fun x : string => x in
  let m := WSStreamMessage "" true (Some "m1") in
  MessageInput.canSend trim (stateOf (onmessage (Some m) streamingState))
    "next"
  = MessageInput.isConnected streamingState
    && match terminalId m with
       | Some _ => true
       | None => negb true
       end
    && (0 <? String.length (trim "next"))%nat.
Proof.
  apply (stream_frame_and_guard (fun x : string => x) streamingState
           (WSStreamMessage "" true (Some "m1"))
           {| ChatStore.id := "c0"; ChatStore.content := "";
              ChatStore.isStreaming := true |} "next");
    reflexivity.
Defined.

(* ================================================================== *)
(** * The hook as [ChatArea] mounts it *)
(* ================================================================== *)

Ltac mounted_simpl :=
  repeat progress
    (hsimpl;
     unfold ChatAreaView.invoke, ChatAreaView.onStream, ChatAreaView.onError;
     unfold_handler; hsimpl).

Ltac break_mounted :=
  mounted_simpl;
  repeat (match goal with
          | |- context [match ?x with _ => _ end] =>
              lazymatch x with
              | context [match _ with _ => _ end] => fail
              | _ => destruct x eqn:?
              end
          end; mounted_simpl).

(** X17.  With [ChatArea]'s callbacks, a [chat.error] frame undoes the whole
    optimistic state: the pending user message and the accumulator are
    both [null] afterwards, the status is [error] with the frame's message
    and code, nothing is sent and the message queries are not
    invalidated. *)
Theorem mounted_chat_error (cid tok : option string) (s : HookState)
  (m : WSIncomingMessage) :
  type m = "chat.error" ->
  let r := ChatAreaView.dispatch cid tok (OnMessage (Some m)) s in
  ChatStore.pendingUserMessage (chatStore (stateOf r)) = None
  /\ accumulator (stateOf r) = None
  /\ WebSocketStore.status (wsStore (stateOf r)) = Error
  /\ WebSocketStore.error (wsStore (stateOf r))
     = Some {| WebSocketStore.message := error m;
               WebSocketStore.code := code m |}
  /\ valueOf r = false
  /\ sent (traceOf r) = [].
Proof.
  intro Ht. cbv zeta.
  unfold ChatAreaView.dispatch. simpl step. unfold onmessage. rewrite Ht.
  repeat split.
Qed.

Lemma mounted_chat_error_witness :
  let m := WSErrorMessage "rate limit" RATE_LIMIT_EXCEEDED in
  let r := ChatAreaView.dispatch (Some "conv-1") (Some "token")
             (OnMessage (Some m)) streamingState in
  ChatStore.pendingUserMessage (chatStore (stateOf r)) = None
  /\ accumulator (stateOf r) = None
  /\ WebSocketStore.status (wsStore (stateOf r)) = Error
  /\ WebSocketStore.error (wsStore (stateOf r))
     = Some {| WebSocketStore.message := error m;
               WebSocketStore.code := code m |}
  /\ valueOf r = false
  /\ sent (traceOf r) = [].
Proof.
  apply (mounted_chat_error (Some "conv-1") (Some "token") streamingState
           (WSErrorMessage "rate limit" RATE_LIMIT_EXCEEDED)).
  reflexivity.
Defined.

(** X18.  With [ChatArea]'s callbacks, a [chat.stream] frame invalidates the
    message queries and drops the pending user message exactly when it has
    [done: true], whether or not it carries a [message_id]; otherwise the
    pending message stays.  The callback does not touch the accumulator or
    the connection store: they are what the hook alone leaves. *)
Theorem mounted_stream_frame (cid tok : option string) (s : HookState)
  (m : WSIncomingMessage) :
  isStream m ->
  let r := ChatAreaView.dispatch cid tok (OnMessage (Some m)) s in
  valueOf r = done m
  /\ ChatStore.pendingUserMessage (chatStore (stateOf r))
     = (if done m then None
        else ChatStore.pendingUserMessage (chatStore s))
  /\ accumulator (stateOf r) = accumulator (stateOf (onmessage (Some m) s))
  /\ wsStore (stateOf r) = wsStore s
  /\ sent (traceOf r) = [].
Proof.
  unfold isStream. intro Ht. cbv zeta.
  unfold ChatAreaView.dispatch, valueOf, stateOf, traceOf, accumulator.
  simpl step. run_handler. rewrite Ht.
  break_mounted; try discriminate; repeat split.
Qed.

Lemma mounted_stream_frame_witness :
  let m := WSStreamMessage "" true None in
  let r := ChatAreaView.dispatch (Some "conv-1") (Some "token")
             (OnMessage (Some m)) streamingState in
  valueOf r = done m
  /\ ChatStore.pendingUserMessage (chatStore (stateOf r))
     = (if done m then None
        else ChatStore.pendingUserMessage (chatStore streamingState))
  /\ accumulator (stateOf r)
     = accumulator (stateOf (onmessage (Some m) streamingState))
  /\ wsStore (stateOf r) = wsStore streamingState
  /\ sent (traceOf r) = [].
Proof.
  apply (mounted_stream_frame (Some "conv-1") (Some "token") streamingState
           (WSStreamMessage "" true None)).
  reflexivity.
Defined.

Lemma sent_app (t1 t2 : list Effect) :
  sent (t1 ++ t2) = (sent t1 ++ sent t2)%list.
Proof.
  induction t1 as [|e t1 IH]; simpl; [reflexivity|].
  destruct e; simpl; now rewrite IH.
Qed.

Lemma opened_app (t1 t2 : list Effect) :
  Session.opened (t1 ++ t2) = (Session.opened t1 ++ Session.opened t2)%list.
Proof.
  induction t1 as [|e t1 IH]; simpl; [reflexivity|].
  destruct e; simpl; now rewrite IH.
Qed.

Lemma dispatchAll_cons (cid tok : option string) (e : Event)
  (es : list Event) (s : HookState) :
  stateOf (ChatAreaView.dispatchAll cid tok (e :: es) s)
  = stateOf (ChatAreaView.dispatchAll cid tok es
               (stateOf (ChatAreaView.dispatch cid tok e s)))
  /\ traceOf (ChatAreaView.dispatchAll cid tok (e :: es) s)
     = (traceOf (ChatAreaView.dispatch cid tok e s)
        ++ traceOf (ChatAreaView.dispatchAll cid tok es
                      (stateOf (ChatAreaView.dispatch cid tok e s))))%list.
Proof. simpl ChatAreaView.dispatchAll. rewrite bind_run. split; reflexivity. Qed.

Lemma dispatch_same (cid tok : option string) (e : Event) (s' s : HookState) :
  ChatAreaView.sameButPending s' s ->
  ChatAreaView.sameButPending
    (stateOf (ChatAreaView.dispatch cid tok e s')) (stateOf (step cid tok e s))
  /\ sent (traceOf (ChatAreaView.dispatch cid tok e s'))
     = sent (traceOf (step cid tok e s))
  /\ Session.delays (traceOf (ChatAreaView.dispatch cid tok e s'))
     = Session.delays (traceOf (step cid tok e s))
  /\ Session.opened (traceOf (ChatAreaView.dispatch cid tok e s'))
     = Session.opened (traceOf (step cid tok e s)).
Proof.
  destruct s' as [ws' [cc' sm' p'] r' n' t'].
  destruct s as [ws [cc sm p] r n t].
  unfold ChatAreaView.sameButPending. simpl.
  intros [H1 [H2 [H3 [H4 [H5 H6]]]]]. subst.
  unfold ChatAreaView.dispatch, stateOf, traceOf.
  destruct e as [| |data| |c| |c u]; simpl step; run_handler;
    break_mounted; try discriminate; repeat split.
Qed.

(** X19.  Mounting the hook in [ChatArea] changes nothing but the pending user
    message: for every sequence of events, the run with [ChatArea]'s
    callbacks and the run of the bare hook end with the same connection
    store, socket, counter, timer and accumulator, and hand the same
    frames, the same timers and the same sockets to the outside.  So every
    property of the connection and of the accumulator proved for the hook
    holds for the mounted hook. *)
Theorem mounted_same_session (cid tok : option string) (es : list Event)
  (s : HookState) :
  let mounted := ChatAreaView.dispatchAll cid tok es s in
  let bare := run cid tok es s in
  ChatAreaView.sameButPending (stateOf mounted) (stateOf bare)
  /\ sent (traceOf mounted) = sent (traceOf bare)
  /\ Session.delays (traceOf mounted) = Session.delays (traceOf bare)
  /\ Session.opened (traceOf mounted) = Session.opened (traceOf bare).
Proof.
  cbv zeta.
  assert (H : forall s' s0, ChatAreaView.sameButPending s' s0 ->
            ChatAreaView.sameButPending
              (stateOf (ChatAreaView.dispatchAll cid tok es s'))
              (stateOf (run cid tok es s0))
            /\ sent (traceOf (ChatAreaView.dispatchAll cid tok es s'))
               = sent (traceOf (run cid tok es s0))
            /\ Session.delays (traceOf (ChatAreaView.dispatchAll cid tok es s'))
               = Session.delays (traceOf (run cid tok es s0))
            /\ Session.opened (traceOf (ChatAreaView.dispatchAll cid tok es s'))
               = Session.opened (traceOf (run cid tok es s0))).
  { induction es as [|e es IH]; intros s' s0 Hsame.
    - repeat split; try reflexivity; apply Hsame.
    - destruct (dispatchAll_cons cid tok e es s') as [Hs' Ht'].
      destruct (run_cons cid tok e es s0) as [Hs Ht].
      destruct (dispatch_same cid tok e s' s0 Hsame) as [Hsame1 [Hx [Hd Ho]]].
      destruct (IH _ _ Hsame1) as [IHsame [IHx [IHd IHo]]].
      rewrite Hs', Ht', Hs, Ht.
      rewrite !sent_app, !delays_app, !opened_app.
      rewrite Hx, Hd, Ho, IHx, IHd, IHo.
      repeat split; try reflexivity; apply IHsame. }
  apply H. repeat split.
Qed.

(* ================================================================== *)
(** * What [ChatArea] renders *)
(* ================================================================== *)

(** X20.  After a [chat.error] frame [ChatArea] renders the error page whatever
    the message queries are doing, with the frame's error text (the
    default text when that is empty), and no input.  If the socket is open,
    as it is when a frame arrives, the page's reconnect button, which calls
    [connect], changes nothing. *)
Theorem error_page_after_chat_error (cid tok : option string) (s : HookState)
  (m : WSIncomingMessage) (isLoadingMessages : bool) (fetched : nat) :
  type m = "chat.error" ->
  socketOpen s = true ->
  let s1 := stateOf (onmessage (Some m) s) in
  ChatAreaView.view s1 isLoadingMessages fetched
  = ChatAreaView.ErrorPage
      (if JS.truthy_string (error m) then Some (error m) else None)
  /\ ChatAreaView.rendersInput
       (ChatAreaView.view s1 isLoadingMessages fetched) = false
  /\ connect cid tok s1 = (tt, s1, []).
Proof.
  intros Ht Hopen. cbv zeta.
  assert (Hs1 : stateOf (onmessage (Some m) s)
                = {| wsStore :=
                       WebSocketStore.setError
                         (Some {| WebSocketStore.message := error m;
                                  WebSocketStore.code := code m |})
                         (wsStore s);
                     chatStore := ChatStore.clearStreaming (chatStore s);
                     wsRef := wsRef s;
                     reconnectAttempts := reconnectAttempts s;
                     reconnectTimeoutRef := reconnectTimeoutRef s |}).
  { unfold onmessage. rewrite Ht. reflexivity. }
  rewrite Hs1.
  assert (Hv : ChatAreaView.view
                 {| wsStore :=
                       WebSocketStore.setError
                         (Some {| WebSocketStore.message := error m;
                                  WebSocketStore.code := code m |})
                         (wsStore s);
                     chatStore := ChatStore.clearStreaming (chatStore s);
                     wsRef := wsRef s;
                     reconnectAttempts := reconnectAttempts s;
                     reconnectTimeoutRef := reconnectTimeoutRef s |}
                 isLoadingMessages fetched
               = ChatAreaView.ErrorPage
                   (if JS.truthy_string (error m)
                    then Some (error m) else None)) by reflexivity.
  rewrite Hv. repeat split.
  apply connect_open. exact Hopen.
Qed.

Lemma error_page_after_chat_error_witness :
  let m := WSErrorMessage "" AI_ERROR in
  let s1 := stateOf (onmessage (Some m) streamingState) in
  ChatAreaView.view s1 true 3
  = ChatAreaView.ErrorPage
      (if JS.truthy_string (error m) then Some (error m) else None)
  /\ ChatAreaView.rendersInput (ChatAreaView.view s1 true 3) = false
  /\ connect (Some "conv-1") (Some "token") s1 = (tt, s1, []).
Proof.
  apply (error_page_after_chat_error (Some "conv-1") (Some "token")
           streamingState (WSErrorMessage "" AI_ERROR) true 3);
    reflexivity.
Defined.

(** X21.  After a close with the auth-failure code 4001, and after a close with
    the normal code 1000, the store has been reset, so [ChatArea] renders
    neither the error page nor a spinner: it renders the message area
    (loading, welcome or conversation), whose input cannot send because the
    status is [disconnected]. *)
Theorem no_error_page_after_reset (trim : string -> string) (s : HookState)
  (isLoadingMessages : bool) (fetched : nat) (text : string) :
  let after := fun c => stateOf (onclose c s) in
  (ChatAreaView.view (after 4001) isLoadingMessages fetched
   = if isLoadingMessages then ChatAreaView.LoadingMessages
     else if negb (ChatAreaView.hasMessages fetched (after 4001))
          then ChatAreaView.Welcome
          else ChatAreaView.Conversation)
  /\ (ChatAreaView.view (after 1000) isLoadingMessages fetched
      = if isLoadingMessages then ChatAreaView.LoadingMessages
        else if negb (ChatAreaView.hasMessages fetched (after 1000))
             then ChatAreaView.Welcome
             else ChatAreaView.Conversation)
  /\ MessageInput.canSend trim (after 4001) text = false
  /\ MessageInput.canSend trim (after 1000) text = false
  /\ WebSocketStore.error (wsStore (after 4001)) = None.
Proof.
  cbv beta zeta.
  rewrite (onclose_give_up s 1000); [|discriminate | now left].
  repeat split.
Qed.

(* ================================================================== *)
(** * Properties of [MessageList] *)
(* ================================================================== *)

(** X22.  The list of items is empty exactly when [MessageList] shows its empty
    state: the two tests of the component agree. *)
Theorem allItems_empty (messages : list Message) (st : ChatStore.ChatState) :
  MessageList.allItems messages st = []
  <-> MessageList.showsEmptyState messages st = true.
Proof.
  unfold MessageList.allItems, MessageList.showsEmptyState,
    MessageList.fetchedHas.
  destruct messages as [|m ms].
  - simpl.
    destruct (ChatStore.pendingUserMessage st);
      destruct (ChatStore.streamingMessage st); simpl;
      split; intro H; try reflexivity; discriminate.
  - simpl. split; intro H; discriminate.
Qed.

Lemma filter_map_MessageItem (messages : list Message) :
  filter MessageList.isStreamingItem (map MessageList.MessageItem messages)
  = [].
Proof. induction messages as [|m ms IH]; [reflexivity | exact IH]. Qed.

Lemma existsb_id_In (messages : list Message) (i : string) :
  MessageList.fetchedHas messages i = false ->
  forall m, In m messages -> Types.id m <> i.
Proof.
  unfold MessageList.fetchedHas.
  induction messages as [|x ms IH]; intros H m Hin; [contradiction|].
  simpl in H. apply orb_false_iff in H. destruct H as [Hx Hms].
  destruct Hin as [->|Hin].
  - now apply String.eqb_neq.
  - now apply IH.
Qed.

(** X23.  The fetched messages always come first and unchanged; the list
    holds at most one streaming item: its streaming items are exactly the
    accumulator, once, when there is one and no fetched message has its
    id, and none otherwise.  That item is then the last item and has an id
    different from the id of every fetched message.  Once a fetched
    message carries the accumulator's id (the server's [message_id] after
    [finishStreaming] and a refetch), the streaming item is no longer
    listed: the reply is not shown twice. *)
Theorem allItems_streaming (messages : list Message)
  (st : ChatStore.ChatState) :
  firstn (length messages) (MessageList.allItems messages st)
  = map MessageList.MessageItem messages
  /\ (length (MessageList.allItems messages st) <= length messages + 2)%nat
  /\ filter MessageList.isStreamingItem (MessageList.allItems messages st)
     = match ChatStore.streamingMessage st with
       | Some sm =>
           if MessageList.fetchedHas messages (ChatStore.id sm)
           then []
           else [MessageList.StreamingItem sm]
       | None => []
       end
  /\ (length (filter MessageList.isStreamingItem
                (MessageList.allItems messages st)) <= 1)%nat
  /\ (forall sm,
        In (MessageList.StreamingItem sm) (MessageList.allItems messages st) ->
        ChatStore.streamingMessage st = Some sm
        /\ last (MessageList.allItems messages st)
             (MessageList.StreamingItem sm)
           = MessageList.StreamingItem sm
        /\ (forall m, In m messages -> Types.id m <> ChatStore.id sm))
  /\ (forall mid,
        MessageList.fetchedHas messages mid = true ->
        filter MessageList.isStreamingItem
          (MessageList.allItems messages (ChatStore.finishStreaming mid st))
        = []).
Proof.
  assert (Hfilter : forall st',
            filter MessageList.isStreamingItem
              (MessageList.allItems messages st')
            = match ChatStore.streamingMessage st' with
              | Some sm =>
                  if MessageList.fetchedHas messages (ChatStore.id sm)
                  then []
                  else [MessageList.StreamingItem sm]
              | None => []
              end).
  { intro st'. unfold MessageList.allItems. rewrite !filter_app.
    rewrite filter_map_MessageItem. simpl.
    destruct (ChatStore.pendingUserMessage st');
      destruct (ChatStore.streamingMessage st') as [sm|];
      try destruct (MessageList.fetchedHas messages (ChatStore.id sm));
      reflexivity. }
  split; [|split; [|split; [exact (Hfilter st)|split]]].
  - unfold MessageList.allItems.
    rewrite firstn_app, length_map, Nat.sub_diag. simpl.
    rewrite <- (length_map MessageList.MessageItem messages) at 1.
    rewrite firstn_all. now rewrite app_nil_r.
  - unfold MessageList.allItems. rewrite !length_app, length_map.
    destruct (ChatStore.pendingUserMessage st);
      destruct (ChatStore.streamingMessage st) as [sm|];
      try destruct (negb (MessageList.fetchedHas messages (ChatStore.id sm)));
      simpl; lia.
  - rewrite (Hfilter st).
    destruct (ChatStore.streamingMessage st) as [sm|];
      try destruct (MessageList.fetchedHas messages (ChatStore.id sm));
      simpl; lia.
  - split.
    + intros sm H.
      assert (Hin : In (MessageList.StreamingItem sm)
                      (filter MessageList.isStreamingItem
                         (MessageList.allItems messages st))).
      { apply filter_In. split; [exact H | reflexivity]. }
      rewrite (Hfilter st) in Hin.
      destruct (ChatStore.streamingMessage st) as [sm'|] eqn:Hsm;
        [|contradiction].
      destruct (MessageList.fetchedHas messages (ChatStore.id sm')) eqn:Hhas;
        [contradiction|].
      destruct Hin as [Heq|[]]. inversion Heq; subst sm'.
      repeat split.
      * unfold MessageList.allItems. rewrite Hsm, Hhas. simpl negb.
        cbv iota. rewrite app_assoc. apply last_last.
      * intros m Hm. now apply (existsb_id_In messages (ChatStore.id sm)).
    + intros mid Hhas. rewrite Hfilter.
      unfold ChatStore.finishStreaming, ChatStore.set_streamingMessage.
      simpl. destruct (ChatStore.streamingMessage st); simpl;
        rewrite ?Hhas; reflexivity.
Qed.

(* ================================================================== *)
(** * Properties of the optimistic update of [useMessages] *)
(* ================================================================== *)

Lemma assign_last {A : Type} (l : list A) (a x : A) :
  nth_error (l ++ [a]) (length (l ++ [a]) - 1) = Some a
  /\ UseMessages.assign (length (l ++ [a]) - 1) x (l ++ [a]) = (l ++ [x])%list.
Proof.
  rewrite length_app. simpl length.
  replace (length l + 1 - 1)%nat with (length l) by lia.
  split.
  - rewrite nth_error_app2 by lia. now rewrite Nat.sub_diag.
  - unfold UseMessages.assign.
    rewrite firstn_app, Nat.sub_diag, firstn_all. simpl firstn.
    rewrite app_nil_r.
    rewrite skipn_app, skipn_all2 by (simpl; lia).
    replace (S (length l) - length l)%nat with 1%nat by lia.
    reflexivity.
Qed.

(** X24.  The optimistic update appends the message to the last cached page and
    to nothing else: the flattened message list grows by exactly that
    message at its end, the number of pages, the page parameters, every
    earlier page and the last page's [total], [page], [page_size] and
    [has_more] are unchanged.  With no cached page the message is dropped
    (the cache is returned as it is), as it is when there is no cache entry
    or no conversation id. *)
Theorem optimistic_append (cid : string) (message : Message)
  (early : list UseMessages.PaginatedMessages)
  (last : UseMessages.PaginatedMessages) (params : list Z) :
  cid <> "" ->
  let old := {| UseMessages.pages := (early ++ [last])%list;
                UseMessages.pageParams := params |} in
  let empty := {| UseMessages.pages := [];
                  UseMessages.pageParams := params |} in
  UseMessages.addOptimisticMessage (Some cid) message (Some old)
  = Some {| UseMessages.pages :=
              (early
               ++ [{| UseMessages.messages :=
                        (UseMessages.messages last ++ [message])%list;
                      UseMessages.total := UseMessages.total last;
                      UseMessages.page := UseMessages.page last;
                      UseMessages.page_size := UseMessages.page_size last;
                      UseMessages.has_more := UseMessages.has_more last |}])%list;
            UseMessages.pageParams := params |}
  /\ option_map UseMessages.select
       (UseMessages.addOptimisticMessage (Some cid) message (Some old))
     = Some (UseMessages.select old ++ [message])%list
  /\ UseMessages.addOptimisticMessage (Some cid) message (Some empty)
     = Some empty
  /\ UseMessages.addOptimisticMessage (Some cid) message None = None
  /\ UseMessages.addOptimisticMessage None message (Some old) = Some old
  /\ UseMessages.addOptimisticMessage (Some "") message (Some old) = Some old.
Proof.
  intro Hcid. cbv zeta.
  assert (Htruthy : UseMessages.truthy (Some cid) = true).
  { destruct cid; [congruence | reflexivity]. }
  assert (Hadd : UseMessages.addOptimisticMessage (Some cid) message
                   (Some {| UseMessages.pages := (early ++ [last])%list;
                            UseMessages.pageParams := params |})
                 = Some {| UseMessages.pages :=
                             (early
                              ++ [{| UseMessages.messages :=
                                       (UseMessages.messages last ++ [message])%list;
                                     UseMessages.total := UseMessages.total last;
                                     UseMessages.page := UseMessages.page last;
                                     UseMessages.page_size :=
                                       UseMessages.page_size last;
                                     UseMessages.has_more :=
                                       UseMessages.has_more last |}])%list;
                           UseMessages.pageParams := params |}).
  { unfold UseMessages.addOptimisticMessage. rewrite Htruthy.
    unfold UseMessages.updater. cbn [negb UseMessages.pages
                                       UseMessages.pageParams].
    assert (Hpos : (0 <? length (early ++ [last]))%nat = true).
    { apply Nat.ltb_lt. rewrite length_app. simpl. lia. }
    rewrite Hpos.
    destruct (assign_last early last
                {| UseMessages.messages :=
                     (UseMessages.messages last ++ [message])%list;
                   UseMessages.total := UseMessages.total last;
                   UseMessages.page := UseMessages.page last;
                   UseMessages.page_size := UseMessages.page_size last;
                   UseMessages.has_more := UseMessages.has_more last |})
      as [Hnth Hassign].
    rewrite Hnth, Hassign. reflexivity. }
  rewrite Hadd. repeat split.
  - unfold UseMessages.select. simpl.
    rewrite !flat_map_app. simpl. rewrite !app_nil_r.
    now rewrite app_assoc.
  - unfold UseMessages.addOptimisticMessage. rewrite Htruthy. reflexivity.
  - unfold UseMessages.addOptimisticMessage. rewrite Htruthy. reflexivity.
Qed.

Lemma optimistic_append_witness :
  let message := {| Types.id := "u1"; role := User; msg_content := "hello";
                    prompt_tokens := None; completion_tokens := None;
                    model_used := "gpt-4o"; created_at := "t" |} in
  let last := {| UseMessages.messages := [];
                 UseMessages.total := 0; UseMessages.page := 1;
                 UseMessages.page_size := 50;
                 UseMessages.has_more := false |} in
  let old := {| UseMessages.pages := ([] ++ [last])%list;
                UseMessages.pageParams := [1] |} in
  let empty := {| UseMessages.pages := [];
                  UseMessages.pageParams := [1] |} in
  UseMessages.addOptimisticMessage (Some "conv-1") message (Some old)
  = Some {| UseMessages.pages :=
              ([]
               ++ [{| UseMessages.messages :=
                        (UseMessages.messages last ++ [message])%list;
                      UseMessages.total := UseMessages.total last;
                      UseMessages.page := UseMessages.page last;
                      UseMessages.page_size := UseMessages.page_size last;
                      UseMessages.has_more := UseMessages.has_more last |}])%list;
            UseMessages.pageParams := [1] |}
  /\ option_map UseMessages.select
       (UseMessages.addOptimisticMessage (Some "conv-1") message (Some old))
     = Some (UseMessages.select old ++ [message])%list
  /\ UseMessages.addOptimisticMessage (Some "conv-1") message (Some empty)
     = Some empty
  /\ UseMessages.addOptimisticMessage (Some "conv-1") message None = None
  /\ UseMessages.addOptimisticMessage None message (Some old) = Some old
  /\ UseMessages.addOptimisticMessage (Some "") message (Some old) = Some old.
Proof.
  apply (optimistic_append "conv-1"
           {| Types.id := "u1"; role := User; msg_content := "hello";
              prompt_tokens := None; completion_tokens := None;
              model_used := "gpt-4o"; created_at := "t" |}
           []
           {| UseMessages.messages := [];
              UseMessages.total := 0; UseMessages.page := 1;
              UseMessages.page_size := 50;
              UseMessages.has_more := false |}
           [1]).
  discriminate.
Defined.

(* ================================================================== *)
(** * Properties of [formatRelativeTime] *)
(* ================================================================== *)

Lemma div_lt_iff (a b q : Z) : 0 < b -> (a / b < q <-> a < b * q).
Proof.
  intro Hb. split; intro H.
  - destruct (Z.lt_ge_cases a (b * q)) as [Hlt|Hge]; [exact Hlt|].
    apply Z.div_le_lower_bound in Hge; [lia | exact Hb].
  - now apply Z.div_lt_upper_bound.
Qed.

(** X25.  [formatRelativeTime] by thresholds on the elapsed milliseconds: "just
    now" below one minute (and for every time in the future), whole
    minutes from 1 to 59 below one hour, whole hours from 1 to 23 below one
    day, whole days from 1 to 6 below one week, and the formatted date from
    one week on.  The number shown is the elapsed time divided by the unit,
    rounded down. *)
Theorem formatRelativeTime_ranges (diffMs : Z) :
  match Utils.formatRelativeTime diffMs with
  | Utils.JustNow => diffMs < 60000
  | Utils.MinutesAgo n =>
      60000 <= diffMs < 3600000 /\ n = diffMs / 60000 /\ 1 <= n <= 59
  | Utils.HoursAgo n =>
      3600000 <= diffMs < 86400000 /\ n = diffMs / 3600000 /\ 1 <= n <= 23
  | Utils.DaysAgo n =>
      86400000 <= diffMs < 604800000 /\ n = diffMs / 86400000 /\ 1 <= n <= 6
  | Utils.FormattedDate => 604800000 <= diffMs
  end.
Proof.
  unfold Utils.formatRelativeTime. cbv zeta.
  assert (Hm : diffMs / 1000 / 60 = diffMs / 60000).
  { rewrite Z.div_div by lia. reflexivity. }
  assert (Hh : diffMs / 1000 / 60 / 60 = diffMs / 3600000).
  { rewrite Hm, Z.div_div by lia. reflexivity. }
  assert (Hd : diffMs / 1000 / 60 / 60 / 24 = diffMs / 86400000).
  { rewrite Hh, Z.div_div by lia. reflexivity. }
  rewrite Hd, Hh, Hm.
  destruct (Z.ltb_spec (diffMs / 1000) 60) as [H1|H1].
  { apply div_lt_iff in H1; lia. }
  assert (G1 : 60000 <= diffMs).
  { destruct (Z.lt_ge_cases diffMs 60000) as [C|C]; [|exact C].
    assert (diffMs / 1000 < 60) by (apply div_lt_iff; lia). lia. }
  destruct (Z.ltb_spec (diffMs / 60000) 60) as [H2|H2].
  { pose proof H2 as K. apply div_lt_iff in K; [|lia].
    assert (1 <= diffMs / 60000) by (apply Z.div_le_lower_bound; lia).
    repeat split; lia. }
  assert (G2 : 3600000 <= diffMs).
  { destruct (Z.lt_ge_cases diffMs 3600000) as [C|C]; [|exact C].
    assert (diffMs / 60000 < 60) by (apply div_lt_iff; lia). lia. }
  destruct (Z.ltb_spec (diffMs / 3600000) 24) as [H3|H3].
  { pose proof H3 as K. apply div_lt_iff in K; [|lia].
    assert (1 <= diffMs / 3600000) by (apply Z.div_le_lower_bound; lia).
    repeat split; lia. }
  assert (G3 : 86400000 <= diffMs).
  { destruct (Z.lt_ge_cases diffMs 86400000) as [C|C]; [|exact C].
    assert (diffMs / 3600000 < 24) by (apply div_lt_iff; lia). lia. }
  destruct (Z.ltb_spec (diffMs / 86400000) 7) as [H4|H4].
  { pose proof H4 as K. apply div_lt_iff in K; [|lia].
    assert (1 <= diffMs / 86400000) by (apply Z.div_le_lower_bound; lia).
    repeat split; lia. }
  destruct (Z.lt_ge_cases diffMs 604800000) as [C|C]; [|exact C].
  assert (diffMs / 86400000 < 7) by (apply div_lt_iff; lia). lia.
Qed.

(* ================================================================== *)
(** * Properties of the auth store, of [useAuthInit] and of the layouts *)
(* ================================================================== *)

Lemma act_consistent (a : AuthStore.Action) (st : AuthStore.AuthState) :
  AuthStore.isAuthenticated st = AuthStore.present (AuthStore.user st) ->
  AuthStore.isAuthenticated (AuthStore.act a st)
  = AuthStore.present (AuthStore.user (AuthStore.act a st)).
Proof. destruct a; simpl; intro H; try exact H; reflexivity. Qed.

(** X26.  [isAuthenticated] says whether a user is stored: this holds in the
    initial state and every sequence of store actions ([setUser],
    [setAccessToken], [login], [logout], [setInitialized]) keeps it.  The
    token is not part of it: [logout] clears it together with the user,
    but [setUser(null)] leaves it. *)
Theorem authenticated_iff_user (l : list AuthStore.Action)
  (st : AuthStore.AuthState) :
  AuthStore.isAuthenticated st = AuthStore.present (AuthStore.user st) ->
  AuthStore.isAuthenticated (AuthStore.actAll l st)
  = AuthStore.present (AuthStore.user (AuthStore.actAll l st))
  /\ AuthStore.isAuthenticated (AuthStore.actAll l AuthStore.initial)
     = AuthStore.present (AuthStore.user (AuthStore.actAll l AuthStore.initial))
  /\ AuthStore.accessToken (AuthStore.actAll (l ++ [AuthStore.Logout]) st)
     = None
  /\ AuthStore.accessToken
       (AuthStore.actAll [AuthStore.SetUser None] st)
     = AuthStore.accessToken st.
Proof.
  assert (H : forall l' st',
            AuthStore.isAuthenticated st'
            = AuthStore.present (AuthStore.user st') ->
            AuthStore.isAuthenticated (AuthStore.actAll l' st')
            = AuthStore.present (AuthStore.user (AuthStore.actAll l' st'))).
  { unfold AuthStore.actAll.
    induction l' as [|a l' IH]; intros st' Hst; [exact Hst|].
    simpl. apply IH. now apply act_consistent. }
  intro Hst. repeat split.
  - now apply H.
  - now apply H.
  - unfold AuthStore.actAll. rewrite fold_left_app. reflexivity.
Qed.

Lemma authenticated_iff_user_witness :
  let u := {| AuthStore.id := "1"; AuthStore.email := "a@b.c";
              AuthStore.username := "ann" |} in
  let l := [AuthStore.SetAccessToken (Some "t"); AuthStore.SetUser (Some u);
            AuthStore.SetInitialized true; AuthStore.SetUser None;
            AuthStore.Login u "t2"] in
  let st := AuthStore.logout (AuthStore.login u "t0" AuthStore.initial) in
  AuthStore.isAuthenticated (AuthStore.actAll l st)
  = AuthStore.present (AuthStore.user (AuthStore.actAll l st))
  /\ AuthStore.isAuthenticated (AuthStore.actAll l AuthStore.initial)
     = AuthStore.present (AuthStore.user (AuthStore.actAll l AuthStore.initial))
  /\ AuthStore.accessToken (AuthStore.actAll (l ++ [AuthStore.Logout]) st)
     = None
  /\ AuthStore.accessToken
       (AuthStore.actAll [AuthStore.SetUser None] st)
     = AuthStore.accessToken st.
Proof.
  apply (authenticated_iff_user
           [AuthStore.SetAccessToken (Some "t");
            AuthStore.SetUser
              (Some {| AuthStore.id := "1"; AuthStore.email := "a@b.c";
                       AuthStore.username := "ann" |});
            AuthStore.SetInitialized true; AuthStore.SetUser None;
            AuthStore.Login
              {| AuthStore.id := "1"; AuthStore.email := "a@b.c";
                 AuthStore.username := "ann" |} "t2"]
           (AuthStore.logout
              (AuthStore.login
                 {| AuthStore.id := "1"; AuthStore.email := "a@b.c";
                    AuthStore.username := "ann" |} "t0" AuthStore.initial))).
  reflexivity.
Defined.

(** X27.  [useAuthInit], run on a store that is not initialized yet, always
    leaves it initialized, and authenticated exactly when both requests
    succeeded, in which case it holds the refreshed token and the fetched
    user.  When either request fails the store holds neither token nor
    user: a token obtained by a refresh whose [getMe] then failed is
    cleared again.  Run again, it does nothing. *)
Theorem initAuth_outcome (refresh refresh' : option string)
  (getMe getMe' : option AuthStore.User) (st : AuthStore.AuthState) :
  AuthStore.isInitialized st = false ->
  let st' := UseAuth.initAuth refresh getMe st in
  AuthStore.isInitialized st' = true
  /\ AuthStore.isAuthenticated st'
     = AuthStore.present refresh && AuthStore.present getMe
  /\ AuthStore.user st'
     = (if AuthStore.present refresh then getMe else None)
  /\ AuthStore.accessToken st'
     = (if AuthStore.present getMe then refresh else None)
  /\ UseAuth.initAuth refresh' getMe' st' = st'.
Proof.
  intro Hinit. cbv zeta. unfold UseAuth.initAuth. rewrite Hinit.
  destruct refresh as [a|]; destruct getMe as [u|]; simpl; repeat split.
Qed.

Lemma initAuth_outcome_witness :
  let st' := UseAuth.initAuth (Some "access") None AuthStore.initial in
  AuthStore.isInitialized st' = true
  /\ AuthStore.isAuthenticated st'
     = AuthStore.present (Some "access")
       && AuthStore.present (@None AuthStore.User)
  /\ AuthStore.user st'
     = (if AuthStore.present (Some "access") then None else None)
  /\ AuthStore.accessToken st'
     = (if AuthStore.present (@None AuthStore.User)
        then Some "access" else None)
  /\ UseAuth.initAuth None None st' = st'.
Proof.
  apply (initAuth_outcome (Some "access") None None None AuthStore.initial).
  reflexivity.
Defined.

(** X28.  The two guarded layouts never disagree: before initialization both
    show the spinner; afterwards exactly one of them renders its pages and
    the other redirects to it ([/chat] when authenticated, [/login] when
    not), so the two redirects cannot loop.  After [useAuthInit] the chat
    pages are rendered exactly when both of its requests succeeded. *)
Theorem layouts_agree (st : AuthStore.AuthState) (refresh : option string)
  (getMe : option AuthStore.User) :
  (if AuthStore.isInitialized st
   then if AuthStore.isAuthenticated st
        then Layouts.ChatLayout st = Layouts.Outlet
             /\ Layouts.AuthLayout st = Layouts.Navigate "/chat"
        else Layouts.AuthLayout st = Layouts.Outlet
             /\ Layouts.ChatLayout st = Layouts.Navigate "/login"
   else Layouts.ChatLayout st = Layouts.FullPageSpinner
        /\ Layouts.AuthLayout st = Layouts.FullPageSpinner)
  /\ Layouts.ChatLayout
       (UseAuth.initAuth refresh getMe
          (AuthStore.setInitialized false st))
     = (if AuthStore.present refresh && AuthStore.present getMe
        then Layouts.Outlet else Layouts.Navigate "/login").
Proof.
  split.
  - unfold Layouts.ChatLayout, Layouts.AuthLayout.
    destruct (AuthStore.isInitialized st);
      destruct (AuthStore.isAuthenticated st); split; reflexivity.
  - destruct refresh, getMe; reflexivity.
Qed.
